(** * BEMCom: the MQTT bridging connector, the columns of the connector admin,
      the settings of the API service, the per-device locks of the KEBA
      connector and the parsing modes of the socket connector.

    The development embeds the Python sources shallowly.  Python values that
    travel through the connector (decoded JSON, message envelopes, the
    available-datapoints registry) are values of [pyval]; functions that can
    raise return a [result]; functions that log or call a collaborator (the
    paho client, the template base class) return a trace of [event]s next to
    their result. *)

From stdpp Require Import gmap strings list pretty.
From Stdlib Require Import ZArith Ascii String.

Local Open Scope string_scope.

(** ** Python values *)

Module Py.

(** The values [json.loads] can build, which are also the values the connector
    puts into its messages.  A [float] keeps the text it was read from: the
    connector never computes with it.  A [str] is held as its UTF-8 bytes. *)
#[warnings="-register-all"]
Inductive pyval : Type :=
| PNone
| PBool (b : bool)
| PInt (z : Z)
| PFloat (lexeme : string)
| PStr (s : string)
| PList (items : list pyval)
| PDict (entries : list (pyval * pyval)).

(** An argument of a [%s] format: a value, or the result of a library
    formatter that is applied to a value before formatting. *)
Inductive fmtarg : Type :=
| ArgVal (v : pyval)
| ArgJsonDumps (indent : Z) (v : pyval)
| ArgConnack (rc : Z).

(** A message is kept as Python's logging keeps it: the format string and its
    arguments.  Rendering is not modelled. *)
Record message : Type := Fmt { fmt : string; fmt_args : list fmtarg }.

Definition plain (s : string) : message := Fmt s [].

(** Exceptions.  Those raised by the interpreter itself keep their class (and
    the key, for [KeyError]); those raised by the source keep their message. *)
Inductive exn : Type :=
| JSONDecodeError
| TypeError
| KeyError (key : pyval)
| IndexError
| ValueError (msg : message)
| RuntimeError (msg : message)
| NotImplementedError (msg : message)
| DoesNotExist
| LibraryError (name : string).

Inductive result (A : Type) : Type :=
| Ok (a : A)
| Raise (e : exn).
Arguments Ok {A} a.
Arguments Raise {A} e.

Definition bind {A B : Type} (r : result A) (k : A -> result B) : result B :=
  match r with
  | Ok a => k a
  | Raise e => Raise e
  end.

Definition is_ok {A : Type} (r : result A) : bool :=
  match r with Ok _ => true | Raise _ => false end.

(** [os.getenv] gives [None] for a variable that is not set. *)
Definition of_getenv (o : option string) : pyval :=
  match o with
  | Some s => PStr s
  | None => PNone
  end.

(** *** Keys of a dict *)

Definition hashable (v : pyval) : bool :=
  match v with
  | PList _ | PDict _ => false
  | _ => true
  end.

Definition as_index (v : pyval) : option Z :=
  match v with
  | PBool b => Some (Z.b2z b)
  | PInt z => Some z
  | _ => None
  end.

(** Equality of two hashable values as a dict compares its keys: [True] and
    [1] are the same key, a [str] only equals a [str].  Two floats are
    compared by their text; no dict of the code modelled here has a float
    key. *)
Definition key_eqb (a b : pyval) : bool :=
  match a, b with
  | PNone, PNone => true
  | PStr s, PStr t => String.eqb s t
  | PFloat x, PFloat y => String.eqb x y
  | PBool _, PBool _ | PBool _, PInt _ | PInt _, PBool _ | PInt _, PInt _ =>
      bool_decide (as_index a = as_index b)
  | _, _ => false
  end.

Fixpoint dict_lookup (k : pyval) (d : list (pyval * pyval)) : option pyval :=
  match d with
  | [] => None
  | (k', v) :: d' => if key_eqb k k' then Some v else dict_lookup k d'
  end.

(** [d[k] = v] on a dict: an existing key keeps its place and gets the new
    value, a new key goes to the end. *)
Fixpoint dict_store (k v : pyval) (d : list (pyval * pyval)) : list (pyval * pyval) :=
  match d with
  | [] => [(k, v)]
  | (k', v') :: d' =>
      if key_eqb k k' then (k', v) :: d' else (k', v') :: dict_store k v d'
  end.

Definition dict_keys (d : list (pyval * pyval)) : list pyval := map fst d.

(** No key occurs twice in a dict. *)
Fixpoint keys_distinct (d : list (pyval * pyval)) : Prop :=
  match d with
  | [] => True
  | (k, _) :: d' => dict_lookup k d' = None /\ keys_distinct d'
  end.

Definition is_str (v : pyval) : Prop := exists s, v = PStr s.

(** The shape of a decoded JSON text: the keys of every object are strings,
    and no object has a key twice. *)
#[warnings="-register-all"]
Inductive wf_json : pyval -> Prop :=
| wf_none : wf_json PNone
| wf_bool b : wf_json (PBool b)
| wf_int z : wf_json (PInt z)
| wf_float x : wf_json (PFloat x)
| wf_str s : wf_json (PStr s)
| wf_list l : Forall wf_json l -> wf_json (PList l)
| wf_dict d :
    keys_distinct d ->
    Forall (fun kv => is_str kv.1 /\ wf_json kv.2) d ->
    wf_json (PDict d).

Definition dict_setitem (d : list (pyval * pyval)) (k v : pyval)
  : result (list (pyval * pyval)) :=
  if hashable k then Ok (dict_store k v d) else Raise TypeError.

(** *** Strings *)

(** Number of bytes of the UTF-8 sequence that starts with byte [c]. *)
Definition utf8_width (c : ascii) : nat :=
  let n := nat_of_ascii c in
  if (n <? 192)%nat then 1%nat
  else if (n <? 224)%nat then 2%nat
  else if (n <? 240)%nat then 3%nat
  else 4%nat.

Fixpoint take_bytes (n : nat) (s : string) : string * string :=
  match n, s with
  | S n', String c s' => let '(h, t) := take_bytes n' s' in (String c h, t)
  | _, _ => ("", s)
  end.

Fixpoint str_chars_aux (fuel : nat) (s : string) : list string :=
  match fuel, s with
  | S fuel', String c s' =>
      let '(h, t) := take_bytes (utf8_width c - 1) s' in
      String c h :: str_chars_aux fuel' t
  | _, _ => []
  end.

Fixpoint rev_string (acc s : string) : string :=
  match s with
  | String c s' => rev_string (String c acc) s'
  | EmptyString => acc
  end.

(** The characters of a [str], each as a [str] of length one. *)
Definition str_chars (s : string) : list string :=
  str_chars_aux (String.length s) s.

Fixpoint is_substring (needle hay : string) : bool :=
  String.prefix needle hay ||
  match hay with
  | "" => false
  | String _ hay' => is_substring needle hay'
  end.

(** *** Operators *)

(** [needle in container] for a [str] needle. *)
Definition str_in (needle : string) (container : pyval) : result bool :=
  match container with
  | PDict d => Ok (bool_decide (is_Some (dict_lookup (PStr needle) d)))
  | PList l => Ok (existsb (key_eqb (PStr needle)) l)
  | PStr s => Ok (is_substring needle s)
  | _ => Raise TypeError
  end.

(** Position [i] of a sequence of length [n], counting from the end when
    negative. *)
Definition seq_index (i : Z) (n : nat) : option nat :=
  let j := (if i <? 0 then i + Z.of_nat n else i)%Z in
  if ((0 <=? j) && (j <? Z.of_nat n))%Z then Some (Z.to_nat j) else None.

(** [container[key]] *)
Definition py_getitem (container key : pyval) : result pyval :=
  match container with
  | PDict d =>
      if hashable key then
        match dict_lookup key d with
        | Some v => Ok v
        | None => Raise (KeyError key)
        end
      else Raise TypeError
  | PList l =>
      match as_index key with
      | Some i =>
          match seq_index i (List.length l) with
          | Some j => match l !! j with Some v => Ok v | None => Raise IndexError end
          | None => Raise IndexError
          end
      | None => Raise TypeError
      end
  | PStr s =>
      match as_index key with
      | Some i =>
          let cs := str_chars s in
          match seq_index i (List.length cs) with
          | Some j => match cs !! j with Some c => Ok (PStr c) | None => Raise IndexError end
          | None => Raise IndexError
          end
      | None => Raise TypeError
      end
  | _ => Raise TypeError
  end.

(** The values a [for] loop over [v] visits. *)
Definition py_iter (v : pyval) : result (list pyval) :=
  match v with
  | PDict d => Ok (dict_keys d)
  | PList l => Ok l
  | PStr s => Ok (map PStr (str_chars s))
  | _ => Raise TypeError
  end.

(** Truth value, in an [if], of what [os.getenv] returned: [None] and the
    empty string are false. *)
Definition truthy (o : option string) : bool :=
  match o with
  | None => false
  | Some s => negb (String.eqb s "")
  end.

(** *** Bytes *)




End Py.

(** ** The JSON decoder

    [json.loads] is the standard library's; the connector calls it on the
    topic-mapping setting and on payloads.  The model follows the pure-Python
    scanner of the [json] package ([json/decoder.py], [json/scanner.py], strict
    mode) on a [str] argument. *)

Module Json.
Import Py.
Local Open Scope Z_scope.

Definition is_ws (c : ascii) : bool :=
  Ascii.eqb c " "%char || Ascii.eqb c "009"%char ||
  Ascii.eqb c "010"%char || Ascii.eqb c "013"%char.

Fixpoint skip_ws (s : string) : string :=
  match s with
  | String c s' => if is_ws c then skip_ws s' else s
  | EmptyString => s
  end.

Definition is_digit (c : ascii) : bool :=
  let n := nat_of_ascii c in (48 <=? n)%nat && (n <=? 57)%nat.

Definition digit_val (c : ascii) : Z := Z.of_nat (nat_of_ascii c) - 48.

(** The longest prefix of digits, and what follows it. *)
Fixpoint take_digits (s : string) : string * string :=
  match s with
  | String c s' =>
      if is_digit c then let '(ds, r) := take_digits s' in (String c ds, r)
      else ("", s)
  | EmptyString => ("", s)
  end.

Fixpoint digits_value (acc : Z) (ds : string) : Z :=
  match ds with
  | String c ds' => digits_value (10 * acc + digit_val c) ds'
  | EmptyString => acc
  end.

Definition is_empty (s : string) : bool :=
  match s with EmptyString => true | _ => false end.

(** [starts c s]: what follows [c] when [s] starts with the character [c]. *)
Definition starts (c : ascii) (s : string) : option string :=
  match s with
  | String c' r => if Ascii.eqb c c' then Some r else None
  | EmptyString => None
  end.

Definition dquote : ascii := "034"%char.

(** An optional sign of an exponent. *)
Definition exponent_sign (s : string) : string * string :=
  match starts "-" s, starts "+" s with
  | Some t, _ => ("-", t)
  | None, Some t => ("+", t)
  | None, None => ("", s)
  end.

(** The scanner's number pattern: an optional minus, [0] or a digit string
    that does not start with [0], an optional fraction, an optional exponent.
    Without fraction and exponent the number is an [int]. *)
Definition scan_number (s : string) : option (pyval * string) :=
  let '(sign, r) :=
    match starts "-" s with
    | Some r => ("-", r)
    | None => ("", s)
    end in
  let '(ds, r1) :=
    match starts "0" r with
    | Some r' => ("0", r')
    | None => take_digits r
    end in
  if is_empty ds then None
  else
    let '(frac, r2) :=
      match starts "." r1 with
      | Some r' =>
          let '(fs, rf) := take_digits r' in
          if is_empty fs then ("", r1) else (String "."%char fs, rf)
      | None => ("", r1)
      end in
    let '(expo, r3) :=
      match r2 with
      | String e r' =>
          if Ascii.eqb e "e"%char || Ascii.eqb e "E"%char then
            let '(sg, rs) := exponent_sign r' in
            let '(es, re) := take_digits rs in
            if is_empty es then ("", r2) else (String e (sg ++ es), re)
          else ("", r2)
      | EmptyString => ("", r2)
      end in
    if is_empty frac && is_empty expo then
      Some (PInt (if is_empty sign then digits_value 0 ds else - digits_value 0 ds), r3)
    else Some (PFloat (sign ++ ds ++ frac ++ expo), r3).

Definition hex_val (c : ascii) : option Z :=
  let n := nat_of_ascii c in
  if (48 <=? n)%nat && (n <=? 57)%nat then Some (Z.of_nat n - 48)
  else if (65 <=? n)%nat && (n <=? 70)%nat then Some (Z.of_nat n - 55)
  else if (97 <=? n)%nat && (n <=? 102)%nat then Some (Z.of_nat n - 87)
  else None.

Definition hex4 (a b c d : ascii) : option Z :=
  match hex_val a, hex_val b, hex_val c, hex_val d with
  | Some x, Some y, Some z, Some w => Some (((x * 16 + y) * 16 + z) * 16 + w)
  | _, _, _, _ => None
  end.

Definition byte (z : Z) : ascii := ascii_of_nat (Z.to_nat z).

(** UTF-8 bytes of the code point [u]. *)
Definition utf8_encode (u : Z) : string :=
  if u <? 128 then String (byte u) ""
  else if u <? 2048 then
    String (byte (192 + u / 64)) (String (byte (128 + u mod 64)) "")
  else if u <? 65536 then
    String (byte (224 + u / 4096))
      (String (byte (128 + (u / 64) mod 64)) (String (byte (128 + u mod 64)) ""))
  else
    String (byte (240 + u / 262144))
      (String (byte (128 + (u / 4096) mod 64))
         (String (byte (128 + (u / 64) mod 64)) (String (byte (128 + u mod 64)) ""))).

(** The character a one-letter escape stands for. *)
Definition backslash (e : ascii) : option ascii :=
  match e with
  | "034"%char => Some "034"%char
  | "\"%char => Some "\"%char
  | "/"%char => Some "/"%char
  | "b"%char => Some "008"%char
  | "f"%char => Some "012"%char
  | "n"%char => Some "010"%char
  | "r"%char => Some "013"%char
  | "t"%char => Some "009"%char
  | _ => None
  end.

Definition prepend (h : string) (r : option (string * string)) : option (string * string) :=
  match r with
  | Some (t, rest) => Some (h ++ t, rest)
  | None => None
  end.

Definition high_surrogate (u : Z) : bool := (55296 <=? u) && (u <=? 56319).
Definition low_surrogate (u : Z) : bool := (56320 <=? u) && (u <=? 57343).

(** [scanstring]: [s] starts after the opening quote; the result is the
    decoded content and what follows the closing quote.  A control character
    is refused (strict mode); a [\u] escape of a high surrogate joins the low
    surrogate escape that follows it, when one does. *)
Fixpoint scan_string (s : string) : option (string * string) :=
  match s with
  | EmptyString => None
  | String c r =>
      if Ascii.eqb c dquote then Some ("", r)
      else if Ascii.eqb c "\"%char then
        match r with
        | EmptyString => None
        | String e r1 =>
            if Ascii.eqb e "u"%char then
              match r1 with
              | String h1 (String h2 (String h3 (String h4 r2))) =>
                  match hex4 h1 h2 h3 h4 with
                  | None => None
                  | Some u =>
                      if high_surrogate u then
                        match r2 with
                        | String b1 (String b2 r3) =>
                            if Ascii.eqb b1 "\"%char && Ascii.eqb b2 "u"%char then
                              match r3 with
                              | String l1 (String l2 (String l3 (String l4 r4))) =>
                                  match hex4 l1 l2 l3 l4 with
                                  | None => None
                                  | Some u2 =>
                                      if low_surrogate u2 then
                                        prepend
                                          (utf8_encode
                                             (65536 + ((u - 55296) * 1024 + (u2 - 56320))))
                                          (scan_string r4)
                                      else prepend (utf8_encode u) (scan_string r2)
                                  end
                              | _ => None
                              end
                            else prepend (utf8_encode u) (scan_string r2)
                        | _ => prepend (utf8_encode u) (scan_string r2)
                        end
                      else prepend (utf8_encode u) (scan_string r2)
                  end
              | _ => None
              end
            else
              match backslash e with
              | Some x => prepend (String x "") (scan_string r1)
              | None => None
              end
        end
      else if (nat_of_ascii c <? 32)%nat then None
      else prepend (String c "") (scan_string r)
  end.

Definition strip_prefix (p s : string) : option string :=
  if String.prefix p s then Some (snd (take_bytes (String.length p) s)) else None.

(** The constants, then numbers, then the three names Python accepts for the
    floats that JSON has no literal for. *)
Definition scan_atom (s : string) : option (pyval * string) :=
  match strip_prefix "null" s with
  | Some r => Some (PNone, r)
  | None =>
  match strip_prefix "true" s with
  | Some r => Some (PBool true, r)
  | None =>
  match strip_prefix "false" s with
  | Some r => Some (PBool false, r)
  | None =>
  match scan_number s with
  | Some res => Some res
  | None =>
  match strip_prefix "NaN" s with
  | Some r => Some (PFloat "nan", r)
  | None =>
  match strip_prefix "Infinity" s with
  | Some r => Some (PFloat "inf", r)
  | None =>
  match strip_prefix "-Infinity" s with
  | Some r => Some (PFloat "-inf", r)
  | None => None
  end end end end end end end.

(** [scan_once] with [JSONObject] and [JSONArray].  [json_object] starts after
    the opening quote of a key, [json_array] at an item.  The pairs of an
    object go through [dict]: a repeated key keeps its first place and its last
    value. *)
Fixpoint scan_once (fuel : nat) (s : string) {struct fuel} : option (pyval * string) :=
  match fuel with
  | O => None
  | S fuel' =>
      match starts dquote s, starts "{" s, starts "[" s with
      | Some r, _, _ =>
          match scan_string r with
          | Some (t, r') => Some (PStr t, r')
          | None => None
          end
      | None, Some r, _ =>
          match starts "}" (skip_ws r), starts dquote (skip_ws r) with
          | Some r', _ => Some (PDict [], r')
          | None, Some r' => json_object fuel' r' []
          | None, None => None
          end
      | None, None, Some r =>
          match starts "]" (skip_ws r) with
          | Some r' => Some (PList [], r')
          | None => json_array fuel' (skip_ws r) []
          end
      | None, None, None => scan_atom s
      end
  end
with json_object (fuel : nat) (s : string) (pairs : list (pyval * pyval)) {struct fuel}
  : option (pyval * string) :=
  match fuel with
  | O => None
  | S fuel' =>
      match scan_string s with
      | None => None
      | Some (key, r) =>
          match starts ":" (skip_ws r) with
          | None => None
          | Some r1 =>
              match scan_once fuel' (skip_ws r1) with
              | None => None
              | Some (value, r2) =>
                  let pairs' := dict_store (PStr key) value pairs in
                  match starts "}" (skip_ws r2), starts "," (skip_ws r2) with
                  | Some r3, _ => Some (PDict pairs', r3)
                  | None, Some r3 =>
                      match starts dquote (skip_ws r3) with
                      | Some r4 => json_object fuel' r4 pairs'
                      | None => None
                      end
                  | None, None => None
                  end
              end
          end
      end
  end
with json_array (fuel : nat) (s : string) (values : list pyval) {struct fuel}
  : option (pyval * string) :=
  match fuel with
  | O => None
  | S fuel' =>
      match scan_once fuel' s with
      | None => None
      | Some (value, r) =>
          match starts "]" (skip_ws r), starts "," (skip_ws r) with
          | Some r1, _ => Some (PList (values ++ [value]), r1)
          | None, Some r1 => json_array fuel' (skip_ws r1) (values ++ [value])
          | None, None => None
          end
      end
  end.

(** [json.loads(s)] for a [str]: one value between optional white space, and
    nothing after it.  [None] stands for [JSONDecodeError].  The fuel is more
    than twice the length of the text, which is enough for every text
    ([decode_complete] below); the recursion limit of the interpreter is not
    modelled. *)
Definition decode (s : string) : option pyval :=
  match scan_once (2 * String.length s + 2)%nat (skip_ws s) with
  | Some (v, r) => if is_empty (skip_ws r) then Some v else None
  | None => None
  end.

(** [json.loads(x)] for any argument: what is not a [str] is a [TypeError]
    (the settings and payloads of the connector are never [bytes]). *)
Definition loads (x : pyval) : result pyval :=
  match x with
  | PStr s =>
      match decode s with
      | Some v => Ok v
      | None => Raise JSONDecodeError
      end
  | _ => Raise TypeError
  end.

End Json.

(** ** Effects: the log and the calls on collaborators *)

Module Eff.
Import Py.

Inductive level : Type := DEBUG | INFO | WARNING | ERROR.

#[global] Instance level_eq_dec : EqDecision level.
Proof. solve_decision. Defined.

(** A message of the remote broker as paho hands it to [on_message]. *)
Record mqtt_message : Type := MqttMessage {
  topic : string;
  payload : string;
  qos : Z;
  retain : Z;
}.

(** What a function does besides returning: entries of the [pyconnector]
    logger, and calls of methods that live outside this file (the paho client,
    the temporary file, the sensor flow of the template). *)
Inductive event : Type :=
| Log (lvl : level) (msg : message)
| RunSensorFlow (raw_data : mqtt_message)
| NewClient (topic_mapping : pyval)
| SetOnMessage
| SetOnConnect
| TempFileWrite (name content : string)
| TlsSet (ca_certs : option string)
| UsernamePwSet (username : string) (password : option string)
| Connect (host : option string) (port : Z)
| Subscribe (topic : pyval) (qos : Z).

(** A computation: the events it emitted, in order, and how it ended. *)
Record M (A : Type) : Type := Run { trace : list event; outcome : result A }.
Arguments Run {A} trace outcome.
Arguments trace {A} m.
Arguments outcome {A} m.

Definition pure {A : Type} (a : A) : M A := Run [] (Ok a).

Definition and_then {A B : Type} (m : M A) (k : A -> M B) : M B :=
  match outcome m with
  | Ok a => Run (trace m ++ trace (k a)) (outcome (k a))
  | Raise e => Run (trace m) (Raise e)
  end.

(** A pure step that may raise. *)
Definition lift {A : Type} (r : result A) : M A := Run [] r.

Definition raise {A : Type} (e : exn) : M A := Run [] (Raise e).

Definition log (lvl : level) (f : string) (args : list fmtarg) : M unit :=
  Run [Log lvl (Fmt f args)] (Ok tt).

(** A call on a collaborator: the call is recorded, its outcome is the
    collaborator's. *)
Definition call {A : Type} (e : event) (r : result A) : M A := Run [e] r.

(** [for x in xs: body x] *)
Fixpoint for_each {A : Type} (xs : list A) (body : A -> M unit) : M unit :=
  match xs with
  | [] => pure tt
  | x :: xs' => and_then (body x) (fun _ => for_each xs' body)
  end.

(** Readings of a trace. *)

Definition sensor_flow_calls (tr : list event) : list mqtt_message :=
  omap (fun e => match e with RunSensorFlow m => Some m | _ => None end) tr.

Definition subscriptions (tr : list event) : list (pyval * Z) :=
  omap (fun e => match e with Subscribe t q => Some (t, q) | _ => None end) tr.

Definition tls_calls (tr : list event) : list (option string) :=
  omap (fun e => match e with TlsSet ca => Some ca | _ => None end) tr.

Definition files_written (tr : list event) : list (string * string) :=
  omap (fun e => match e with TempFileWrite n c => Some (n, c) | _ => None end) tr.

Definition logged (lvl : level) (tr : list event) : list message :=
  omap (fun e => match e with
                 | Log l m => if bool_decide (l = lvl) then Some m else None
                 | _ => None
                 end) tr.

Definition log_entries (tr : list event) : list message :=
  omap (fun e => match e with Log _ m => Some m | _ => None end) tr.

Definition credentials_set (tr : list event) : list (string * option string) :=
  omap (fun e => match e with UsernamePwSet u p => Some (u, p) | _ => None end) tr.

Definition connect_calls (tr : list event) : list (option string * Z) :=
  omap (fun e => match e with Connect h p => Some (h, p) | _ => None end) tr.

End Eff.

#[global] Instance result_ret : MRet Py.result := @Py.Ok.
#[global] Instance result_bind : MBind Py.result := fun A B k r => Py.bind r k.
#[global] Instance eff_ret : MRet Eff.M := @Eff.pure.
#[global] Instance eff_bind : MBind Eff.M := fun A B k m => Eff.and_then m k.

(** ** The MQTT bridging connector
    ([services/connectors/mqtt-connector/source/connector/main.py]) *)

Module MqttConnector.
Import Py Eff.

Definition nl : string := String "010"%char "".

(** The process environment, after [load_dotenv]. *)
Definition getenv (env : gmap string string) (name : string) : option string :=
  env !! name.

(** The client of the remote broker.  The class is an argument of the
    constructor ([RemoteMqttClient], paho's [Client] by default, a mock in the
    tests), so each method is given by how it ends. *)
Record client : Type := Client {
  tls_set : option string -> result unit;
  username_pw_set : string -> option string -> result unit;
  connect : option string -> Z -> result unit;
  subscribe : pyval -> Z -> result unit;
}.

(** The part of the connector object that this file reads.  [run_sensor_flow]
    is inherited from the template; only how a call of it ends matters here. *)
Record connector : Type := Connector {
  parse_sensor_msgs_as_json : bool;
  run_sensor_flow : mqtt_message -> result unit;
}.

(** The [userdata] dict of the remote client: built once, in
    [create_remote_mqtt_client], with exactly these two keys. *)
Record userdata : Type := Userdata {
  ud_self : connector;
  ud_topic_mapping : pyval;
}.

(** *** SensorFlow *)


(** The raw message as [parse_raw_msg] expects it: what [receive_raw_msg]
    builds from a message of the remote broker, with its timestamp. *)
Definition raw_envelope (mqtt_topic mqtt_payload timestamp : pyval) : pyval :=
  PDict [(PStr "payload",
          PDict [(PStr "raw_message",
                  PDict [(PStr "topic", mqtt_topic); (PStr "payload", mqtt_payload)]);
                 (PStr "timestamp", timestamp)])].

Definition parsed_envelope (parsed_message timestamp : pyval) : pyval :=
  PDict [(PStr "payload",
          PDict [(PStr "parsed_message", parsed_message); (PStr "timestamp", timestamp)])].

Definition parse_raw_msg (self : connector) (raw_msg : pyval) : M pyval :=
  mqtt_topic ← lift (p ← py_getitem raw_msg (PStr "payload");
                     r ← py_getitem p (PStr "raw_message");
                     py_getitem r (PStr "topic"));
  mqtt_payload ← lift (p ← py_getitem raw_msg (PStr "payload");
                       r ← py_getitem p (PStr "raw_message");
                       py_getitem r (PStr "payload"));
  timestamp ← lift (p ← py_getitem raw_msg (PStr "payload");
                    py_getitem p (PStr "timestamp"));
  mqtt_payload ←
    (if parse_sensor_msgs_as_json self then
       match Json.loads mqtt_payload with
       | Ok v => mret v
       | Raise JSONDecodeError =>
           log WARNING
             ("Could not parse mqtt_payload as JSON although REMOTE_MQTT_" ++
              "BROKER_PARSE_JSON is set to TRUE. MQTT topic was: %s. " ++
              "MQTT payload was: %s")
             [ArgVal mqtt_topic; ArgVal mqtt_payload];;
           mret mqtt_payload
       | Raise e => raise e
       end
     else mret mqtt_payload);
  parsed_message ← lift (dict_setitem [] mqtt_topic mqtt_payload);
  mret (PDict [(PStr "payload",
                PDict [(PStr "parsed_message", PDict parsed_message);
                       (PStr "timestamp", timestamp)])]).

(** *** ActuatorFlow *)


(** *** Connector *)

Definition parse_topic_mapping (env : gmap string string) : result pyval :=
  let setting := of_getenv (getenv env "REMOTE_MQTT_BROKER_TOPIC_MAPPING") in
  topic_mapping ←
    match Json.loads setting with
    | Raise JSONDecodeError =>
        Raise (ValueError
                 (Fmt ("REMOTE_MQTT_BROKER_TOPIC_MAPPING is not a valid JSON string. " ++
                       "REMOTE_MQTT_BROKER_TOPIC_MAPPING was: %s")
                      [ArgVal setting]))
    | r => r
    end;
  has_sensor_topics ← str_in "sensor_topics" topic_mapping;
  if negb has_sensor_topics then
    Raise (ValueError
             (Fmt ("Expected key sensor_topics in REMOTE_MQTT_BROKER_TOPIC_" ++
                   "MAPPING but got instead:" ++ nl ++ "%s")
                  [ArgJsonDumps 4 topic_mapping]))
  else
    has_actuator_topics ← str_in "actuator_topics" topic_mapping;
    if negb has_actuator_topics then
      Raise (ValueError
               (Fmt ("Expected key actuator_topics in REMOTE_MQTT_BROKER_TOPIC_" ++
                     "MAPPING but got instead:" ++ nl ++ "%s")
                    [ArgJsonDumps 4 topic_mapping]))
    else Ok topic_mapping.

Definition _handle_remote_mqtt_msg (cl : client) (ud : userdata) (msg : mqtt_message)
  : M unit :=
  let self := ud_self ud in
  log DEBUG "Handling incoming MQTT message from remote broker on topic: %s"
    [ArgVal (PStr (topic msg))];;
  if (retain msg =? 0)%Z then
    call (RunSensorFlow msg) (run_sensor_flow self msg)
  else
    log DEBUG "Skipping retained message for topic: %s" [ArgVal (PStr (topic msg))].

Definition on_remote_connect (env : gmap string string)
    (cl : client) (ud : userdata) (flags : pyval) (rc : Z) : M unit :=
  if (rc =? 0)%Z then
    log INFO "Connection to remote MQTT broker (%s:%s) successful"
      [ArgVal (of_getenv (getenv env "REMOTE_MQTT_BROKER_HOST"));
       ArgVal (of_getenv (getenv env "REMOTE_MQTT_BROKER_PORT"))];;
    let topic_mapping := ud_topic_mapping ud in
    sensor_topics ← lift (py_getitem topic_mapping (PStr "sensor_topics"));
    topics ← lift (py_iter sensor_topics);
    for_each topics (fun topic =>
      log INFO "Subscribing to topic on remote broker: %s" [ArgVal topic];;
      call (Subscribe topic 2) (subscribe cl topic 2))
  else
    raise (RuntimeError
             (Fmt "Connection to remote MQTT broker (%s:%s) failed. Error was: %s"
                  [ArgVal (of_getenv (getenv env "REMOTE_MQTT_BROKER_HOST"));
                   ArgVal (of_getenv (getenv env "REMOTE_MQTT_BROKER_PORT"));
                   ArgConnack rc])).

(** [int(x)] on what [os.getenv] returned: [None] is a [TypeError]; a string
    is stripped of white space and read as an optional sign and decimal digits,
    single underscores allowed between digits.  Digits and white space are
    the ASCII ones. *)
Definition is_space (c : ascii) : bool :=
  let n := nat_of_ascii c in
  ((9 <=? n)%nat && (n <=? 13)%nat) || (n =? 32)%nat.

Fixpoint lstrip (s : string) : string :=
  match s with
  | String c s' => if is_space c then lstrip s' else s
  | EmptyString => s
  end.

Definition strip (s : string) : string :=
  rev_string "" (lstrip (rev_string "" (lstrip s))).

Fixpoint int_digits (acc : Z) (after_digit : bool) (s : string) : option Z :=
  match s with
  | EmptyString => if after_digit then Some acc else None
  | String c r =>
      if Json.is_digit c then int_digits (10 * acc + Json.digit_val c)%Z true r
      else if Ascii.eqb c "_"%char && after_digit then int_digits acc false r
      else None
  end.

Definition py_int (x : pyval) : result Z :=
  match x with
  | PStr s =>
      let '(negative, body) :=
        match strip s with
        | String "-"%char r => (true, r)
        | String "+"%char r => (false, r)
        | r => (false, r)
        end in
      match int_digits 0 false body with
      | Some z => Ok (if negative then - z else z)%Z
      | None => Raise (ValueError (Fmt "invalid literal for int() with base 10: %r" [ArgVal x]))
      end
  | _ => Raise TypeError
  end.

Definition create_remote_mqtt_client (env : gmap string string) (self : connector)
    (topic_mapping : pyval) (RemoteMqttClient : client) (tmp_name : string) : M client :=
  log INFO "Configuring remote MQTT connection." [];;
  remote_mqtt_client ← call (NewClient topic_mapping) (Ok RemoteMqttClient);
  call SetOnMessage (Ok tt);;
  call SetOnConnect (Ok tt);;
  (if bool_decide (getenv env "REMOTE_MQTT_BROKER_USE_TLS" = Some "TRUE") then
     log INFO "Using TLS to encrypt connection." [];;
     let ca_content := getenv env "REMOTE_MQTT_BROKER_CA_FILE" in
     ca_file_fnp ←
       (if truthy ca_content then
          log INFO "Using CA file to check server certificate." [];;
          call (TempFileWrite tmp_name (default "" ca_content)) (Ok tt);;
          mret (Some tmp_name)
        else mret None);
     (* This will not verify the server certificate if ca_file_fnp is None. *)
     call (TlsSet ca_file_fnp) (tls_set remote_mqtt_client ca_file_fnp)
   else mret tt);;
  let username := getenv env "REMOTE_MQTT_BROKER_USERNAME" in
  (if truthy username then
     log INFO "Using username %s for remote broker." [ArgVal (of_getenv username)];;
     let password := getenv env "REMOTE_MQTT_BROKER_PASSWORD" in
     match password with
     | Some pw =>
         log INFO "Using password with length %s for remote broker"
           [ArgVal (PInt (Z.of_nat (List.length (str_chars pw))))]
     | None => mret tt
     end;;
     call (UsernamePwSet (default "" username) password)
       (username_pw_set remote_mqtt_client (default "" username) password)
   else mret tt);;
  log INFO "Connecting to remote MQTT broker (%s:%s)."
    [ArgVal (of_getenv (getenv env "REMOTE_MQTT_BROKER_HOST"));
     ArgVal (of_getenv (getenv env "REMOTE_MQTT_BROKER_PORT"))];;
  let host := getenv env "REMOTE_MQTT_BROKER_HOST" in
  port ← lift (py_int (of_getenv (getenv env "REMOTE_MQTT_BROKER_PORT")));
  call (Connect host port) (connect remote_mqtt_client host port);;
  mret remote_mqtt_client.

(** One turn of the loop of [compute_actuator_datapoints]. *)
Definition actuator_datapoint (actuator_topics : pyval)
    (actuator_datapoints : list (pyval * pyval)) (topic : pyval)
  : result (list (pyval * pyval)) :=
  entry ← py_getitem actuator_topics topic;
  example_value ← py_getitem entry (PStr "example_value");
  dict_setitem actuator_datapoints topic example_value.

Fixpoint fold_result {A B : Type} (f : B -> A -> result B) (xs : list A) (b : B)
  : result B :=
  match xs with
  | [] => Ok b
  | x :: xs' => b' ← f b x; fold_result f xs' b'
  end.

Definition compute_actuator_datapoints (topic_mapping : pyval)
  : result (list (pyval * pyval)) :=
  actuator_topics ← py_getitem topic_mapping (PStr "actuator_topics");
  topics ← py_iter actuator_topics;
  fold_result (actuator_datapoint actuator_topics) topics [].

(** [acts] holds one entry for each topic that a loop over [actuator_topics]
    visits, and nothing else: its keys are those topics, in order, and each
    topic has the [example_value] of its entry. *)
Definition seeded_from (actuator_topics : pyval) (acts : list (pyval * pyval)) : Prop :=
  exists topics,
    py_iter actuator_topics = Ok topics /\
    dict_keys acts = topics /\
    keys_distinct acts /\
    (forall topic, topic ∈ topics ->
       exists entry v,
         py_getitem actuator_topics topic = Ok entry /\
         py_getitem entry (PStr "example_value") = Ok v /\
         dict_lookup topic acts = Some v).

(** What [__init__] has built when it hands over to the constructor of the
    template: the object, the connected remote client, and the
    [available_datapoints] entry of the keyword arguments it passes on. *)
Record instance : Type := Instance {
  inst_self : connector;
  remote_mqtt_client : client;
  available_datapoints : pyval;
}.

(** [Connector.__init__], up to the call of [CTemplate.__init__] (the template
    is not part of this file).  [rsf] is the inherited [run_sensor_flow],
    [tmp_name] the name the temporary file would get. *)
Definition __init__ (env : gmap string string) (RemoteMqttClient : client)
    (rsf : mqtt_message -> result unit) (tmp_name : string) : M instance :=
  topic_mapping ← lift (parse_topic_mapping env);
  let self :=
    Connector (bool_decide (getenv env "REMOTE_MQTT_BROKER_PARSE_JSON" = Some "TRUE")) rsf in
  remote ← create_remote_mqtt_client env self topic_mapping RemoteMqttClient tmp_name;
  actuator_datapoints ← lift (compute_actuator_datapoints topic_mapping);
  mret (Instance self remote
          (PDict [(PStr "sensor", PDict []);
                  (PStr "actuator", PDict actuator_datapoints)])).

End MqttConnector.

(** ** The heartbeat check of the admin interface
    ([services/APIs/django/django_code/admin_interface/admin.py]) *)

Module Admin.
Import Py.
Local Open Scope Z_scope.

(** A row of the [ConnectorHeartbeat] table.  The two times are instants
    (timezone-aware datetimes), counted in microseconds. *)
Record ConnectorHeartbeat : Type := Heartbeat {
  connector : Z;
  last_heartbeat : Z;
  next_heartbeat : Z;
}.

(** [objects.filter(connector=id)] *)
Definition filter_connector (objects : list ConnectorHeartbeat) (id : Z)
  : list ConnectorHeartbeat :=
  List.filter (fun hb => connector hb =? id) objects.

(** [.latest(field)]: the row whose [field] is greatest; [DoesNotExist] when
    there is no row. *)
Fixpoint latest (field : ConnectorHeartbeat -> Z) (rows : list ConnectorHeartbeat)
  : result ConnectorHeartbeat :=
  match rows with
  | [] => Raise DoesNotExist
  | hb :: rows' =>
      match latest field rows' with
      | Ok hb' => if field hb <? field hb' then Ok hb' else Ok hb
      | Raise _ => Ok hb
      end
  end.

(** [ConnectorAdmin.alive]; [current_time] is [datetime.now(timezone.utc)]. *)
Definition alive (objects : list ConnectorHeartbeat) (obj_id : Z) (current_time : Z)
  : result bool :=
  hb ← latest next_heartbeat (filter_connector objects obj_id);
  let next_hb := next_heartbeat hb in
  Ok (if current_time <=? next_hb then true else false).

(** A row of the [ConnectorAvailableDatapoints] table and a row of the
    [ConnectorDatapointMapper] table, each with the fields the admin reads. *)
Record ConnectorAvailableDatapoints : Type := AvailableDatapoint {
  ad_connector : Z;
  ad_datapoint_key_in_connector : string;
}.

Record ConnectorDatapointMapper : Type := DatapointMapper {
  dm_connector : Z;
  dm_datapoint_key_in_connector : string;
  mqtt_topic : string;
}.

(** What [last_heartbeat] and [next_heartbeat] return: the time itself, or
    its text when [pretty] is set. *)
Inductive heartbeat_value : Type :=
| Moment (t : Z)
| Text (s : string).

(** The other columns of [ConnectorAdmin]. *)
Module ConnectorAdmin.

Section Columns.

(** [datetime_iso_format] comes from the [utils] module of the admin
    interface; it only gives the text of a time. *)
Variable datetime_iso_format : Z -> bool -> string.

Definition available_datapoints (objects : list ConnectorAvailableDatapoints) (obj_id : Z)
  : nat :=
  let datapoints := List.filter (fun dp => ad_connector dp =? obj_id) objects in
  let keys := map ad_datapoint_key_in_connector datapoints in
  List.length keys.

Definition last_heartbeat (objects : list ConnectorHeartbeat) (obj_id : Z) (pretty : bool)
  : result heartbeat_value :=
  latest_hb_message ← latest last_heartbeat (filter_connector objects obj_id);
  let last_hb := Admin.last_heartbeat latest_hb_message in
  Ok (if pretty then Text (datetime_iso_format last_hb true) else Moment last_hb).

Definition next_heartbeat (objects : list ConnectorHeartbeat) (obj_id : Z) (pretty : bool)
  : result heartbeat_value :=
  latest_hb_message ← latest next_heartbeat (filter_connector objects obj_id);
  let next_hb := Admin.next_heartbeat latest_hb_message in
  Ok (if pretty then Text (datetime_iso_format next_hb true) else Moment next_hb).

(** [queryset[0]]: the first row, [IndexError] when there is none. *)
Definition first_row {A : Type} (rows : list A) : result A :=
  match rows with
  | row :: _ => Ok row
  | [] => Raise IndexError
  end.

(** One turn of the loop of [mqtt_message_topics]. *)
Definition key_topic_mapping (available : list ConnectorAvailableDatapoints) (obj_id : Z)
    (key_topic_mappings : gmap string string) (mapper : ConnectorDatapointMapper)
  : result (gmap string string) :=
  av_dp ← first_row
    (List.filter
       (fun dp => (ad_connector dp =? obj_id) &&
                  String.eqb (ad_datapoint_key_in_connector dp)
                    (dm_datapoint_key_in_connector mapper))
       available);
  Ok (<[ad_datapoint_key_in_connector av_dp := mqtt_topic mapper]> key_topic_mappings).

Definition mqtt_message_topics (available : list ConnectorAvailableDatapoints)
    (objects : list ConnectorDatapointMapper) (obj_id : Z) : result (gmap string string) :=
  let mappers := List.filter (fun mapper => dm_connector mapper =? obj_id) objects in
  MqttConnector.fold_result (key_topic_mapping available obj_id) mappers ∅.

End Columns.

End ConnectorAdmin.

End Admin.

(** ** The settings of the API service
    ([services/apis/django-api/source/api/api_main/settings.py])

    The module is read top to bottom when Django starts; [load] is that
    reading, with the settings that depend on the environment as its result
    and the first exception as its error. *)

Module ApiSettings.
Import Py.

(** The process environment, after [load_dotenv]. *)
Definition getenv (env : gmap string string) (name : string) : option string :=
  env !! name.

(** [os.getenv(name) or default] with a string for [default]. *)
Definition getenv_or (env : gmap string string) (name default : string) : string :=
  if truthy (getenv env name) then from_option id default (getenv env name) else default.

(** [int(os.getenv(name) or default)] with an integer for [default]. *)
Definition int_getenv_or (env : gmap string string) (name : string) (default : Z)
  : result Z :=
  if truthy (getenv env name) then MqttConnector.py_int (of_getenv (getenv env name))
  else Ok default.

(** [str.lower] on the ASCII letters.  A character outside ASCII is left as
    it is here; no such character has a lower case made of letters of [true],
    so the comparison below comes out as in Python. *)
Definition lower_char (c : ascii) : ascii :=
  let n := nat_of_ascii c in
  if (65 <=? n)%nat && (n <=? 90)%nat then ascii_of_nat (n + 32) else c.

Fixpoint lower (s : string) : string :=
  match s with
  | EmptyString => EmptyString
  | String c r => String (lower_char c) (lower r)
  end.

(** [(os.getenv(name) or "FALSE").lower() == "true"] *)
Definition flag (env : gmap string string) (name : string) : bool :=
  String.eqb (lower (getenv_or env name "FALSE")) "true".

(** [string.ascii_letters] *)
Definition ascii_letters : string :=
  "abcdefghijklmnopqrstuvwxyzABCDEFGHIJKLMNOPQRSTUVWXYZ".

(** [n] times [random.choice(string.ascii_letters)], joined.  [draw i] is the
    index that the generator gives at the [i]-th choice; [random.choice] only
    gives indices of its argument, and any other would be an [IndexError]. *)
Fixpoint random_letters (draw : nat -> nat) (i n : nat) : result string :=
  match n with
  | O => Ok ""
  | S n' =>
      match String.get (draw i) ascii_letters with
      | Some c => rest ← random_letters draw (S i) n'; Ok (String c rest)
      | None => Raise IndexError
      end
  end.

(** The [default] entry of [DATABASES]; the file name of the SQLite database
    depends on where the module lies and is left out. *)
Inductive database : Type :=
| Postgresql (HOST : string) (PORT : Z) (USER PASSWORD NAME : string)
| Sqlite3.

Record settings : Type := Settings {
  ACTIVATE_CONTROL_EXTENSION : bool;
  ACTIVATE_HISTORY_EXTENSION : bool;
  MQTT_BROKER_HOST : option string;
  MQTT_BROKER_PORT : Z;
  N_MTD_WRITE_THREADS : Z;
  SECRET_KEY : string;
  DEBUG : bool;
  ALLOWED_HOSTS : pyval;
  ADMINS : option pyval;
  DATABASES : database;
  LOGLEVEL : string;
  STATIC_URL : string;
  COOKIES_SECURE : bool;  (* SESSION_COOKIE_SECURE and CSRF_COOKIE_SECURE *)
}.

Definition load (env : gmap string string) (draw : nat -> nat) : result settings :=
  let activate_control_extension := flag env "ACTIVATE_CONTROL_EXTENSION" in
  let activate_history_extension := flag env "ACTIVATE_HISTORY_EXTENSION" in
  let mqtt_broker_host := getenv env "MQTT_BROKER_HOST" in
  mqtt_broker_port ← int_getenv_or env "MQTT_BROKER_PORT" 1883;
  n_mtd_write_threads ← int_getenv_or env "N_MTD_WRITE_THREADS" 1;
  secret_key ←
    (if negb (truthy (getenv env "DJANGO_SECRET_KEY")) then
       n_worker_processes ← int_getenv_or env "N_WORKER_PROCESSES" 1;
       if (n_worker_processes =? 1)%Z then random_letters draw 0 64
       else
         Raise (ValueError
                  (plain ("DJANGO_SECRET_KEY must be set explicitly if django-api is " ++
                          "run with N_WORKER_PROCESSES > 1.")))
     else Ok (from_option id "" (getenv env "DJANGO_SECRET_KEY")));
  let debug := flag env "DJANGO_DEBUG" in
  allowed_hosts ←
    Json.loads
      (PStr (getenv_or env "DJANGO_ALLOWED_HOSTS"
               ("[" ++ String Json.dquote "localhost" ++ String Json.dquote "]")));
  admins ←
    (if truthy (getenv env "DJANGO_ADMINS") then
       v ← Json.loads (of_getenv (getenv env "DJANGO_ADMINS")); Ok (Some v)
     else Ok None);
  databases ←
    (if truthy (getenv env "DJANGOAPIDB_HOST") then
       port ← int_getenv_or env "DJANGOAPIDB_PORT" 5432;
       Ok (Postgresql (from_option id "" (getenv env "DJANGOAPIDB_HOST")) port
             (getenv_or env "DJANGOAPIDB_USER" "bemcom")
             (getenv_or env "DJANGOAPIDB_PASSWORD" "bemcom")
             (getenv_or env "DJANGOAPIDB_DBNAME" "bemcom"))
     else Ok Sqlite3);
  let loglevel := getenv_or env "LOGLEVEL" "INFO" in
  let root_path := getenv_or env "ROOT_PATH" "" in
  let static_url := "/" ++ root_path ++ "static/" in
  let cookies_secure := flag env "HTTPS_ONLY" in
  Ok (Settings activate_control_extension activate_history_extension mqtt_broker_host
        mqtt_broker_port n_mtd_write_threads secret_key debug allowed_hosts admins
        databases loglevel static_url cookies_secure).

End ApiSettings.

(** ** The locks of the KEBA P30 connector *)

Module Keba.

(** A [threading.Lock] object: which object it is, and whether it is held. *)
Record lock : Type := Lock { lock_id : nat; locked : bool }.

(** Modelled from the spec: one turn of the loop that fills the lock map of
    the KEBA connector, [keba_p30_locks[charge_station_name] = Lock()].
    [st.2] counts the lock objects made so far, so that every [Lock()] is a
    new object. *)
Definition create_lock (st : gmap string lock * nat) (charge_station_name : string)
  : gmap string lock * nat :=
  (<[charge_station_name := Lock st.2 false]> st.1, S st.2).

(** Modelled from the spec: the lock map that the constructor of the KEBA
    connector builds.  The [main.py] of that connector is not among the
    sources, only its tests are.  The spec has per-device locks keyed by
    device name, a map from device identifier to mutex owned by the connector;
    the test [test_locks_created] reads the map as [keba_p30_locks] and
    expects a [threading.Lock] under every key of the charge-station setting
    (a JSON object from station name to host). *)
Definition keba_p30_locks (charge_stations : gmap string string) (next : nat)
  : gmap string lock * nat :=
  foldl create_lock (∅, next) (map_to_list charge_stations).*1.

End Keba.

(** ** The parsing modes of the socket connector *)

Module Socket.
Import Py.

(** The [PARSE_AS] setting. *)
Inductive parse_mode : Type := JSON | YAML.

Section ParseRawMsg.

(** The decoders are the libraries' ([json.loads], the YAML loader), and
    [str] is the built-in conversion of a value to its string
    representation. *)
Variable json_loads : string -> result pyval.
Variable yaml_load : string -> result pyval.
Variable str : pyval -> string.

(** Modelled from the spec: the conversion of the leaves, part of
    [parse_raw_msg] below.  Every value that is not a mapping is replaced by
    its string representation; mappings are kept, key by key. *)
Fixpoint stringify (v : pyval) : pyval :=
  match v with
  | PDict d => PDict (map (fun kv => let '(k, x) := kv in (k, stringify x)) d)
  | _ => PStr (str v)
  end.

(** Modelled from the spec: [parse_raw_msg] of the socket connector, whose
    [main.py] is not among the sources (only its tests are).  The spec has the
    parsing step turn the raw payload into a nested mapping with the format
    (JSON or YAML) chosen by configuration and keep the timestamp; the tests
    [test_json_parsed_correctly] and [test_yaml_parsed_correctly] expect the
    leaf [2.0] as the string [2.0] in both modes. *)
Definition parse_raw_msg (parse_as : parse_mode) (raw_msg : pyval) : result pyval :=
  payload ← py_getitem raw_msg (PStr "payload");
  raw_message ← py_getitem payload (PStr "raw_message");
  timestamp ← py_getitem payload (PStr "timestamp");
  parsed ←
    match raw_message with
    | PStr bytes =>
        match parse_as with
        | JSON => json_loads bytes
        | YAML => yaml_load bytes
        end
    | _ => Raise TypeError
    end;
  Ok (PDict [(PStr "payload",
              PDict [(PStr "parsed_message", stringify parsed);
                     (PStr "timestamp", timestamp)])]).

End ParseRawMsg.

(** The raw message of the tests: the encoded object and its timestamp. *)
Definition raw_envelope (bytes : string) (timestamp : pyval) : pyval :=
  PDict [(PStr "payload",
          PDict [(PStr "raw_message", PStr bytes); (PStr "timestamp", timestamp)])].

Definition parsed_envelope (parsed_message timestamp : pyval) : pyval :=
  PDict [(PStr "payload",
          PDict [(PStr "parsed_message", parsed_message); (PStr "timestamp", timestamp)])].



End Socket.

(** ** A reader for YAML block mappings

    The YAML loader is a library too.  This reader covers the documents that
    [yaml.dump] writes for a nested mapping with string keys and plain scalar
    leaves: one [key: value] or [key:] per line, nesting by indentation.  It
    refuses every other document, so it says nothing wrong about them. *)

Module Yaml.
Import Py.

Fixpoint split_lines (cur : string) (s : string) : list string :=
  match s with
  | EmptyString => if Json.is_empty cur then [] else [rev_string "" cur]
  | String "010"%char s' => rev_string "" cur :: split_lines "" s'
  | String c s' => split_lines (String c cur) s'
  end.

Fixpoint indent_of (line : string) : nat * string :=
  match line with
  | String " "%char r => let '(n, body) := indent_of r in (S n, body)
  | _ => (O, line)
  end.

(** Letters, digits and the few signs a key or a plain string may have
    here. *)
Definition is_plain (c : ascii) : bool :=
  let n := nat_of_ascii c in
  ((48 <=? n)%nat && (n <=? 57)%nat) || ((65 <=? n)%nat && (n <=? 90)%nat) ||
  ((97 <=? n)%nat && (n <=? 122)%nat) || Ascii.eqb c "_"%char || Ascii.eqb c "/"%char.

Fixpoint all_plain (s : string) : bool :=
  match s with
  | EmptyString => true
  | String c r => is_plain c && all_plain r
  end.

(** [key: value] or [key:], split at the first colon. *)
Fixpoint split_key (key : string) (s : string) : option (string * string) :=
  match s with
  | EmptyString => None
  | String ":"%char EmptyString => Some (rev_string "" key, "")
  | String ":"%char (String " "%char r) => Some (rev_string "" key, r)
  | String c r => if is_plain c then split_key (String c key) r else None
  end.

Definition is_letter (c : ascii) : bool :=
  let n := nat_of_ascii c in
  ((65 <=? n)%nat && (n <=? 90)%nat) || ((97 <=? n)%nat && (n <=? 122)%nat).

(** The words YAML 1.1 reads as booleans or null, in lower case. *)
Definition reserved : list string :=
  ["y"; "n"; "yes"; "no"; "on"; "off"; "true"; "false"; "null"].

Definition lower (c : ascii) : ascii :=
  let n := nat_of_ascii c in
  if (65 <=? n)%nat && (n <=? 90)%nat then ascii_of_nat (n + 32) else c.

Fixpoint lower_string (s : string) : string :=
  match s with
  | EmptyString => EmptyString
  | String c r => String (lower c) (lower_string r)
  end.

(** A plain scalar: [true], [false], [null], a decimal integer, a decimal
    fraction, or a word that starts with a letter and is none of the reserved
    ones. *)
Definition scalar (s : string) : option pyval :=
  if String.eqb s "true" then Some (PBool true)
  else if String.eqb s "false" then Some (PBool false)
  else if String.eqb s "null" then Some PNone
  else
    match Json.scan_number s with
    | Some (PInt z, EmptyString) => Some (PInt z)
    | Some (PFloat x, EmptyString) =>
        if existsb (fun c => Ascii.eqb (lower c) "e"%char) (list_ascii_of_string x)
        then None else Some (PFloat x)
    | Some _ => None
    | None =>
        match s with
        | String c _ =>
            if is_letter c && all_plain s &&
               negb (existsb (String.eqb (lower_string s)) reserved)
            then Some (PStr s) else None
        | EmptyString => None
        end
    end.

(** A line: its indentation, its key and its value.  The key has to be a
    word that YAML reads as a string. *)
Definition read_line (line : string) : option (nat * string * string) :=
  let '(n, body) := indent_of line in
  match split_key "" body with
  | Some (key, value) =>
      match scalar key with
      | Some (PStr _) => Some (n, key, value)
      | _ => None
      end
  | None => None
  end.

Fixpoint read_lines (lines : list string) : option (list (nat * string * string)) :=
  match lines with
  | [] => Some []
  | l :: ls =>
      match read_line l, read_lines ls with
      | Some x, Some xs => Some (x :: xs)
      | _, _ => None
      end
  end.

(** The mapping whose keys stand at column [ind], and the lines after it. *)
Fixpoint block (fuel : nat) (ind : nat) (entries : list (pyval * pyval))
    (lines : list (nat * string * string))
  : option (list (pyval * pyval) * list (nat * string * string)) :=
  match fuel with
  | O => None
  | S fuel' =>
      match lines with
      | [] => Some (entries, [])
      | (i, key, value) :: rest =>
          if (i <? ind)%nat then Some (entries, lines)
          else if (ind <? i)%nat then None
          else if Json.is_empty value then
            match rest with
            | (i', _, _) :: _ =>
                if (ind <? i')%nat then
                  match block fuel' i' [] rest with
                  | Some (sub, rest') =>
                      block fuel' ind (dict_store (PStr key) (PDict sub) entries) rest'
                  | None => None
                  end
                else None
            | [] => None
            end
          else
            match scalar value with
            | Some x => block fuel' ind (dict_store (PStr key) x entries) rest
            | None => None
            end
      end
  end.

Definition load (s : string) : result pyval :=
  match read_lines (split_lines "" s) with
  | Some (l :: ls) =>
      match block (2 * List.length (l :: ls) + 2) 0 [] (l :: ls) with
      | Some (entries, []) => Ok (PDict entries)
      | _ => Raise (LibraryError "yaml")
      end
  | _ => Raise (LibraryError "yaml")
  end.

End Yaml.

(** ** Concrete settings and messages, used in the examples below *)

Module Fixtures.
Import Py Eff MqttConnector.

Definition dq : string := String "034"%char "".
Definition quoted (s : string) : string := dq ++ s ++ dq.

(** A client whose calls all return, as the mock of the tests does. *)
Definition mock_client : client :=
  Client (fun _ => Ok tt) (fun _ _ => Ok tt) (fun _ _ => Ok tt) (fun _ _ => Ok tt).

Definition rsf_ok : mqtt_message -> result unit := fun _ => Ok tt.

(** The topic mapping of the connector's documentation: one sensor topic and
    one actuator topic with its example value. *)
Definition mapping_json : string :=
  "{" ++ quoted "sensor_topics" ++ ": {" ++ quoted "plant/temperature" ++ ": {}}, " ++
  quoted "actuator_topics" ++ ": {" ++ quoted "plant/setpoint" ++ ": {" ++
  quoted "example_value" ++ ": " ++ quoted "22.0" ++ "}}}".

(** The same mapping, decoded. *)
Definition mapping : pyval :=
  PDict [(PStr "sensor_topics", PDict [(PStr "plant/temperature", PDict [])]);
         (PStr "actuator_topics",
          PDict [(PStr "plant/setpoint", PDict [(PStr "example_value", PStr "22.0")])])].

Definition self_plain : connector := Connector false rsf_ok.

Definition env_of (l : list (string * string)) : gmap string string := list_to_map l.

Definition env_plain : gmap string string :=
  env_of [("REMOTE_MQTT_BROKER_TOPIC_MAPPING", mapping_json);
          ("REMOTE_MQTT_BROKER_HOST", "broker.example");
          ("REMOTE_MQTT_BROKER_PORT", "1883");
          ("REMOTE_MQTT_BROKER_PARSE_JSON", "TRUE")].

(** TLS switched on, no CA certificate given. *)
Definition env_tls_no_ca : gmap string string :=
  env_of [("REMOTE_MQTT_BROKER_TOPIC_MAPPING", mapping_json);
          ("REMOTE_MQTT_BROKER_HOST", "broker.example");
          ("REMOTE_MQTT_BROKER_PORT", "8883");
          ("REMOTE_MQTT_BROKER_USE_TLS", "TRUE")].

(** TLS switched on, with the content of a CA certificate. *)
Definition env_tls_ca : gmap string string :=
  env_of [("REMOTE_MQTT_BROKER_TOPIC_MAPPING", mapping_json);
          ("REMOTE_MQTT_BROKER_HOST", "broker.example");
          ("REMOTE_MQTT_BROKER_PORT", "8883");
          ("REMOTE_MQTT_BROKER_USE_TLS", "TRUE");
          ("REMOTE_MQTT_BROKER_CA_FILE", "-----BEGIN CERTIFICATE-----")].

(** A topic mapping that is a JSON array holding the two names. *)
Definition env_array : gmap string string :=
  env_of [("REMOTE_MQTT_BROKER_TOPIC_MAPPING",
           "[" ++ quoted "sensor_topics" ++ ", " ++ quoted "actuator_topics" ++ "]");
          ("REMOTE_MQTT_BROKER_HOST", "broker.example");
          ("REMOTE_MQTT_BROKER_PORT", "1883")].

(** The heartbeats of two connectors. *)
Definition heartbeats : list Admin.ConnectorHeartbeat :=
  [Admin.Heartbeat 1 100 130; Admin.Heartbeat 2 110 140;
   Admin.Heartbeat 1 130 160; Admin.Heartbeat 2 140 170].


Definition test_msg_json : string :=
  "{" ++ quoted "dummy_dp" ++ ": {" ++ quoted "sensor_1" ++ ": 2.0}}".

Definition test_msg_yaml : string :=
  "dummy_dp:" ++ nl ++ "  sensor_1: 2.0" ++ nl.

(** [str] on the scalars of a decoded message (a float is held as the text
    [str] gives for it). *)
Definition scalar_str (v : pyval) : string :=
  match v with
  | PNone => "None"
  | PBool true => "True"
  | PBool false => "False"
  | PInt z => pretty z
  | PFloat x => x
  | PStr s => s
  | PList _ | PDict _ => ""
  end.

(** The charge stations of the tests of the KEBA connector. *)
Definition charge_stations : gmap string string :=
  list_to_map [("test_1", "localhost"); ("test_2", "127.0.0.1")].

(** A topic mapping that is the JSON value [null]. *)
Definition env_null : gmap string string :=
  env_of [("REMOTE_MQTT_BROKER_TOPIC_MAPPING", "null")].

Definition env_not_json : gmap string string :=
  env_of [("REMOTE_MQTT_BROKER_TOPIC_MAPPING", "{sensor_topics: }")].


(** TLS with a CA certificate, and a username with its password. *)
Definition env_credentials : gmap string string :=
  <["REMOTE_MQTT_BROKER_USERNAME" := "bemcom"]>
    (<["REMOTE_MQTT_BROKER_PASSWORD" := "s3cret"]> env_tls_ca).

(** The TLS switch written in lower case. *)
Definition env_tls_lower_case : gmap string string :=
  <["REMOTE_MQTT_BROKER_USE_TLS" := "true"]> env_tls_ca.


(** A mapping whose second actuator topic has no example value. *)
Definition actuator_topics_no_example : list (pyval * pyval) :=
  [(PStr "plant/setpoint", PDict [(PStr "example_value", PStr "22.0")]);
   (PStr "plant/valve", PDict [(PStr "example", PStr "open")])].

Definition mapping_no_example : pyval :=
  PDict [(PStr "sensor_topics", PDict []);
         (PStr "actuator_topics", PDict actuator_topics_no_example)].

(** Three sensor topics, the second of which is no valid subscription filter,
    and a client that refuses it as paho does. *)
Definition mapping_bad_filter : pyval :=
  PDict [(PStr "sensor_topics",
          PList [PStr "plant/temperature"; PStr "plant/#/flow"; PStr "plant/flow"]);
         (PStr "actuator_topics", PDict [])].

Definition invalid_filter : exn := ValueError (plain "Invalid subscription filter.").

Definition strict_client : client :=
  Client (fun _ => Ok tt) (fun _ _ => Ok tt) (fun _ _ => Ok tt)
    (fun topic _ => if key_eqb topic (PStr "plant/#/flow") then Raise invalid_filter
                    else Ok tt).

(** The available datapoints and the datapoint mappers of two connectors. *)
Definition available : list Admin.ConnectorAvailableDatapoints :=
  [Admin.AvailableDatapoint 1 "Channel__P__value__0";
   Admin.AvailableDatapoint 1 "Channel__P__unit__0";
   Admin.AvailableDatapoint 2 "Channel__P__value__0"].

Definition mappers : list Admin.ConnectorDatapointMapper :=
  [Admin.DatapointMapper 1 "Channel__P__value__0" "bemcom/plant/0001";
   Admin.DatapointMapper 2 "Channel__P__value__0" "bemcom/boiler/0001";
   Admin.DatapointMapper 1 "Channel__P__unit__0" "bemcom/plant/0003";
   Admin.DatapointMapper 1 "Channel__P__value__0" "bemcom/plant/0002"].

Definition topics_of_connector_1 : gmap string string :=
  {["Channel__P__value__0" := "bemcom/plant/0002";
    "Channel__P__unit__0" := "bemcom/plant/0003"]}.

(** Settings of the API service with four worker processes and no secret
    key. *)
Definition env_four_workers : gmap string string :=
  {["N_WORKER_PROCESSES" := "4"]}.

(** A generator that draws the letters [b], [E], [M], [c] over and over, and
    the key it gives. *)
Definition draw_bemc (i : nat) : nat := nth (i mod 4) [1; 30; 38; 2]%nat O.

Definition key_bemc : string := String.concat "" (replicate 16 "bEMc").

End Fixtures.

(** * Properties *)

Import Py Eff MqttConnector.
Local Open Scope list_scope.

(** ** Computations and their traces *)

Lemma trace_mbind {A B : Type} (m : M A) (k : A -> M B) :
  trace (m ≫= k) =
  trace m ++ match outcome m with Ok a => trace (k a) | Raise _ => [] end.
Proof.
  unfold mbind, eff_bind, and_then.
  destruct (outcome m); simpl; [reflexivity | symmetry; apply app_nil_r].
Qed.

Lemma outcome_mbind {A B : Type} (m : M A) (k : A -> M B) :
  outcome (m ≫= k) =
  match outcome m with Ok a => outcome (k a) | Raise e => Raise e end.
Proof.
  unfold mbind, eff_bind, and_then. destruct (outcome m); reflexivity.
Qed.

Lemma outcome_mbind_ok_inv {A B : Type} (m : M A) (k : A -> M B) b :
  outcome (m ≫= k) = Ok b ->
  exists a, outcome m = Ok a /\ outcome (k a) = Ok b.
Proof.
  rewrite outcome_mbind. destruct (outcome m) as [a|e]; [eauto | discriminate].
Qed.

Lemma bind_ok_inv {A B : Type} (r : result A) (k : A -> result B) b :
  r ≫= k = Ok b -> exists a, r = Ok a /\ k a = Ok b.
Proof.
  unfold mbind, result_bind, Py.bind. destruct r as [a|e]; intros H; [eauto | discriminate].
Qed.

Lemma lift_ok_bind {A B : Type} (a : A) (k : A -> M B) :
  lift (Ok a) ≫= k = k a.
Proof.
  unfold mbind, eff_bind, and_then, lift. simpl. destruct (k a); reflexivity.
Qed.

Lemma omap_app_trace {A : Type} (f : event -> option A) (l1 l2 : list event) :
  omap f (l1 ++ l2) = omap f l1 ++ omap f l2.
Proof. apply omap_app. Qed.

(** ** Dicts *)

Lemma key_eqb_refl (k : pyval) : hashable k = true -> key_eqb k k = true.
Proof.
  destruct k; simpl; intros H; try discriminate; try reflexivity;
    try apply String.eqb_refl; apply bool_decide_eq_true; reflexivity.
Qed.

Lemma key_eqb_sym (a b : pyval) : key_eqb a b = key_eqb b a.
Proof.
  destruct a, b; simpl; try reflexivity; try apply String.eqb_sym;
    apply bool_decide_ext; split; congruence.
Qed.

Lemma key_eqb_trans (a b c : pyval) :
  key_eqb a b = true -> key_eqb b c = true -> key_eqb a c = true.
Proof.
  destruct a, b; simpl; try discriminate; destruct c; simpl; try discriminate;
    rewrite ?bool_decide_eq_true, ?String.eqb_eq; try congruence; auto.
Qed.

Lemma key_eqb_hashable (a b : pyval) : key_eqb a b = true -> hashable a = true.
Proof. destruct a, b; simpl; try discriminate; reflexivity. Qed.

(** Two keys that are equal find the same entry. *)
Lemma key_eqb_same (a b k : pyval) :
  key_eqb a b = true -> key_eqb a k = key_eqb b k.
Proof.
  intros Hab.
  destruct (key_eqb a k) eqn:Hak, (key_eqb b k) eqn:Hbk; try reflexivity.
  - rewrite key_eqb_sym in Hab. rewrite (key_eqb_trans _ _ _ Hab Hak) in Hbk. discriminate.
  - rewrite (key_eqb_trans _ _ _ Hab Hbk) in Hak. discriminate.
Qed.

Lemma dict_lookup_same (a b : pyval) (d : list (pyval * pyval)) :
  key_eqb a b = true -> dict_lookup a d = dict_lookup b d.
Proof.
  intros Hab. induction d as [|[k v] d IH]; simpl; [reflexivity|].
  rewrite (key_eqb_same a b k Hab), IH. reflexivity.
Qed.

Lemma dict_lookup_store_eq (a k v : pyval) (d : list (pyval * pyval)) :
  key_eqb a k = true -> dict_lookup a (dict_store k v d) = Some v.
Proof.
  intros Hak. induction d as [|[k' v'] d IH]; simpl.
  - rewrite Hak. reflexivity.
  - destruct (key_eqb k k') eqn:Hkk'; simpl.
    + rewrite (key_eqb_trans _ _ _ Hak Hkk'). reflexivity.
    + rewrite (key_eqb_same a k k' Hak), Hkk'. exact IH.
Qed.

Lemma dict_lookup_store_ne (a k v : pyval) (d : list (pyval * pyval)) :
  key_eqb a k = false -> dict_lookup a (dict_store k v d) = dict_lookup a d.
Proof.
  intros Hak. induction d as [|[k' v'] d IH]; simpl.
  - rewrite Hak. reflexivity.
  - destruct (key_eqb k k') eqn:Hkk'; simpl.
    + destruct (key_eqb a k') eqn:Hak'; [|reflexivity].
      rewrite key_eqb_sym in Hkk'.
      rewrite (key_eqb_trans _ _ _ Hak' Hkk') in Hak. discriminate.
    + rewrite IH. reflexivity.
Qed.

Lemma dict_keys_store (k v : pyval) (d : list (pyval * pyval)) (x : pyval) :
  x ∈ dict_keys (dict_store k v d) -> x ∈ dict_keys d \/ x = k.
Proof.
  induction d as [|[k' v'] d IH]; simpl.
  - intros Hx. apply list_elem_of_singleton in Hx. auto.
  - destruct (key_eqb k k'); simpl; [auto|].
    intros Hx. apply elem_of_cons in Hx as [->|Hx].
    + left. apply elem_of_cons. auto.
    + destruct (IH Hx) as [H|H]; [left; apply elem_of_cons|]; auto.
Qed.

Lemma keys_distinct_store (k v : pyval) (d : list (pyval * pyval)) :
  keys_distinct d -> keys_distinct (dict_store k v d).
Proof.
  induction d as [|[k' v'] d IH]; simpl; [auto|].
  intros [Hk' Hd]. destruct (key_eqb k k') eqn:Hkk'; simpl; [auto|].
  split; [|auto].
  rewrite dict_lookup_store_ne; [exact Hk'|].
  rewrite key_eqb_sym. exact Hkk'.
Qed.

Lemma as_index_same (a b : pyval) (i j : Z) :
  key_eqb a b = true -> as_index a = Some i -> as_index b = Some j -> i = j.
Proof.
  destruct a, b; simpl; try discriminate;
    rewrite bool_decide_eq_true; congruence.
Qed.

(** Subscripting with two equal keys gives the same value. *)
Lemma py_getitem_same (c a b x y : pyval) :
  key_eqb a b = true -> py_getitem c a = Ok x -> py_getitem c b = Ok y -> x = y.
Proof.
  intros Hab. destruct c; simpl; try discriminate.
  - destruct (as_index a) as [i|] eqn:Hi; [|discriminate].
    destruct (as_index b) as [j|] eqn:Hj; [|discriminate].
    rewrite (as_index_same a b i j Hab Hi Hj). congruence.
  - destruct (as_index a) as [i|] eqn:Hi; [|discriminate].
    destruct (as_index b) as [j|] eqn:Hj; [|discriminate].
    rewrite (as_index_same a b i j Hab Hi Hj). congruence.
  - rewrite (dict_lookup_same a b entries Hab).
    destruct (hashable a), (hashable b); try discriminate.
    destruct (dict_lookup b entries); congruence.
Qed.

Lemma dict_store_fresh (k v : pyval) (d : list (pyval * pyval)) :
  dict_lookup k d = None -> dict_store k v d = d ++ [(k, v)].
Proof.
  induction d as [|[k' v'] d IH]; simpl; [reflexivity|].
  destruct (key_eqb k k'); [discriminate|]. intros H. rewrite (IH H). reflexivity.
Qed.

Lemma dict_lookup_none_key (k : pyval) (d : list (pyval * pyval)) (k' : pyval) :
  dict_lookup k d = None -> k' ∈ dict_keys d -> key_eqb k k' = false.
Proof.
  induction d as [|[k0 v0] d IH]; simpl; intros Hnone Hin.
  - apply elem_of_nil in Hin. contradiction.
  - destruct (key_eqb k k0) eqn:Hk; [discriminate|].
    apply elem_of_cons in Hin as [->|Hin]; auto.
Qed.

Lemma dict_lookup_app_none (k : pyval) (d1 d2 : list (pyval * pyval)) :
  dict_lookup k d1 = None -> dict_lookup k (d1 ++ d2) = dict_lookup k d2.
Proof.
  induction d1 as [|[k0 v0] d1 IH]; simpl; [reflexivity|].
  destruct (key_eqb k k0); [discriminate | exact IH].
Qed.

Lemma dict_store_entries (P : pyval -> Prop) (k v : pyval) (d : list (pyval * pyval)) :
  is_str k -> P v ->
  Forall (fun kv => is_str kv.1 /\ P kv.2) d ->
  Forall (fun kv => is_str kv.1 /\ P kv.2) (dict_store k v d).
Proof.
  intros Hk Hv. induction d as [|[k' v'] d IH]; simpl; intros Hd.
  - repeat constructor; assumption.
  - apply Forall_cons in Hd as [[Hk' Hv'] Hd].
    destruct (key_eqb k k'); constructor; simpl; auto.
Qed.

Lemma wf_json_lookup (d : list (pyval * pyval)) (k v : pyval) :
  wf_json (PDict d) -> dict_lookup k d = Some v -> wf_json v.
Proof.
  intros Hwf. inversion Hwf as [| | | | | |d' _ Hall]; subst. clear Hwf.
  induction d as [|[k' v'] d IH]; simpl; [discriminate|].
  apply Forall_cons in Hall as [[_ Hv'] Hall].
  destruct (key_eqb k k'); [intros H; inversion H; subst; exact Hv' | auto].
Qed.

(** ** The decoders: fuel, and the shape of what they return *)

Lemma skip_ws_length (s : string) : String.length (Json.skip_ws s) <= String.length s.
Proof.
  induction s as [|c s IH]; simpl; [lia|].
  destruct (Json.is_ws c); simpl; lia.
Qed.

Lemma starts_length (c : ascii) (s r : string) :
  Json.starts c s = Some r -> String.length s = S (String.length r).
Proof.
  destruct s as [|c' s]; simpl; [discriminate|].
  destruct (Ascii.eqb c c'); intros H; inversion H; reflexivity.
Qed.

Lemma prepend_some (h : string) (o : option (string * string)) t r :
  Json.prepend h o = Some (t, r) -> exists t', o = Some (t', r).
Proof.
  destruct o as [[t' r']|]; simpl; intros H; inversion H; subst. eauto.
Qed.

(** Case analysis on the tests of a scanner, from a hypothesis that it
    succeeded. *)
Ltac break_match_hyp H :=
  match type of H with
  | context [match ?x with _ => _ end] => destruct x eqn:?
  | context [if ?x then _ else _] => destruct x eqn:?
  end.

Lemma scan_string_length (s : string) : forall t r,
  Json.scan_string s = Some (t, r) -> S (String.length r) <= String.length s.
Proof.
  assert (forall n s, String.length s <= n -> forall t r,
            Json.scan_string s = Some (t, r) -> S (String.length r) <= String.length s) as Hn.
  { induction n as [|n IH]; intros s0 Hlen t r H.
    - destruct s0; [discriminate | simpl in Hlen; lia].
    - destruct s0 as [|c s0]; [discriminate|].
      simpl in H, Hlen.
      repeat (break_match_hyp H; subst; cbn [String.length] in *; try discriminate);
        try (inversion H; subst; lia);
        try (apply prepend_some in H as [t' H]; apply IH in H; cbn [String.length] in *; lia). }
  intros t r. apply (Hn (String.length s) s). lia.
Qed.

Lemma take_digits_length (s : string) :
  String.length (snd (Json.take_digits s)) <= String.length s.
Proof.
  induction s as [|c s IH]; simpl; [lia|].
  destruct (Json.is_digit c); simpl; [|lia].
  destruct (Json.take_digits s); simpl in *. lia.
Qed.

Lemma take_bytes_length (n : nat) (s : string) :
  String.length (snd (take_bytes n s)) <= String.length s.
Proof.
  revert s. induction n as [|n IH]; intros s; simpl; [destruct s; simpl; lia|].
  destruct s as [|c s]; simpl; [lia|].
  specialize (IH s). destruct (take_bytes n s); simpl in *. lia.
Qed.

Lemma strip_prefix_length (p s r : string) :
  Json.strip_prefix p s = Some r -> String.length r <= String.length s.
Proof.
  unfold Json.strip_prefix. destruct (String.prefix p s); [|discriminate].
  intros H; inversion H. apply take_bytes_length.
Qed.

Lemma exponent_sign_length (s : string) :
  String.length (snd (Json.exponent_sign s)) <= String.length s.
Proof.
  unfold Json.exponent_sign.
  destruct (Json.starts "-" s) eqn:H1; [apply starts_length in H1; simpl; lia|].
  destruct (Json.starts "+" s) eqn:H2; [apply starts_length in H2; simpl; lia|].
  simpl; lia.
Qed.

Ltac length_facts :=
  repeat match goal with
  | H : Json.starts _ _ = Some _ |- _ => apply starts_length in H
  | H : Json.take_digits ?s = (_, ?r) |- _ =>
      let Hl := fresh "Hl" in
      pose proof (take_digits_length s) as Hl; rewrite H in Hl; simpl in Hl; clear H
  | H : Json.exponent_sign ?s = (_, ?r) |- _ =>
      let Hl := fresh "Hl" in
      pose proof (exponent_sign_length s) as Hl; rewrite H in Hl; simpl in Hl; clear H
  | H : Json.strip_prefix _ _ = Some _ |- _ => apply strip_prefix_length in H
  end.

Ltac break_all :=
  repeat first
    [ discriminate
    | match goal with
      | H : Some _ = Some _ |- _ => inversion H; subst; clear H
      | H : (_, _) = (_, _) |- _ => inversion H; subst; clear H
      | H : context [match ?x with _ => _ end] |- _ =>
          destruct x eqn:?; cbn beta iota in H
      end ].

Lemma scan_number_length (s : string) v r :
  Json.scan_number s = Some (v, r) -> String.length r <= String.length s.
Proof.
  unfold Json.scan_number. intros H.
  break_all; length_facts; cbn [String.length] in *; lia.
Qed.

Lemma scan_atom_length (s : string) v r :
  Json.scan_atom s = Some (v, r) -> String.length r <= String.length s.
Proof.
  unfold Json.scan_atom. intros H.
  repeat (break_match_hyp H; try discriminate);
    inversion H; subst; length_facts; try lia.
  eapply scan_number_length; eassumption.
Qed.

Lemma skip_ws_starts_length (c : ascii) (s r : string) :
  Json.starts c (Json.skip_ws s) = Some r -> S (String.length r) <= String.length s.
Proof.
  intros H. apply starts_length in H. pose proof (skip_ws_length s). lia.
Qed.

(** A scan that succeeds with some fuel consumes input, and succeeds with
    the same result on any fuel above twice what it consumed. *)
Lemma fuel_enough (n : nat) :
  (forall s v r, Json.scan_once n s = Some (v, r) ->
     String.length r <= String.length s /\
     forall m, 2 * (String.length s - String.length r) + 1 <= m -> Json.scan_once m s = Some (v, r)) /\
  (forall s acc v r, Json.json_object n s acc = Some (v, r) ->
     String.length r <= String.length s /\
     forall m, 2 * (String.length s - String.length r) + 1 <= m -> Json.json_object m s acc = Some (v, r)) /\
  (forall s acc v r, Json.json_array n s acc = Some (v, r) ->
     String.length r <= String.length s /\
     forall m, 2 * (String.length s - String.length r) + 1 <= m -> Json.json_array m s acc = Some (v, r)).
Proof.
  induction n as [|n (IHs & IHo & IHa)]; [repeat split; discriminate|].
  split; [|split].
  - intros s v r H. simpl in H.
    destruct (Json.starts Json.dquote s) as [r0|] eqn:E1.
    { destruct (Json.scan_string r0) as [[t r1]|] eqn:Es; [|discriminate].
      inversion H; subst; clear H.
      apply starts_length in E1 as L1. apply scan_string_length in Es as L2.
      split; [lia|]. intros [|m] Hm; [lia|]. simpl. rewrite E1, Es. reflexivity. }
    destruct (Json.starts "{" s) as [r0|] eqn:E2.
    { apply starts_length in E2 as L2.
      destruct (Json.starts "}" (Json.skip_ws r0)) as [r1|] eqn:E3.
      { inversion H; subst; clear H. apply skip_ws_starts_length in E3 as L3.
        split; [lia|]. intros [|m] Hm; [lia|]. simpl. rewrite E1, E2, E3. reflexivity. }
      destruct (Json.starts Json.dquote (Json.skip_ws r0)) as [r1|] eqn:E4; [|discriminate].
      apply skip_ws_starts_length in E4 as L4.
      destruct (IHo _ _ _ _ H) as [L5 Hfuel].
      split; [lia|]. intros [|m] Hm; [lia|]. simpl. rewrite E1, E2, E3, E4.
      apply Hfuel. lia. }
    destruct (Json.starts "[" s) as [r0|] eqn:E3.
    { apply starts_length in E3 as L3.
      destruct (Json.starts "]" (Json.skip_ws r0)) as [r1|] eqn:E4.
      { inversion H; subst; clear H. apply skip_ws_starts_length in E4 as L4.
        split; [lia|]. intros [|m] Hm; [lia|]. simpl. rewrite E1, E2, E3, E4. reflexivity. }
      destruct (IHa _ _ _ _ H) as [L5 Hfuel]. pose proof (skip_ws_length r0) as L6.
      split; [lia|]. intros [|m] Hm; [lia|]. simpl. rewrite E1, E2, E3, E4.
      apply Hfuel. lia. }
    apply scan_atom_length in H as L.
    split; [lia|]. intros [|m] Hm; [lia|]. simpl. rewrite E1, E2, E3. exact H.
  - intros s acc v r H. simpl in H.
    destruct (Json.scan_string s) as [[key r0]|] eqn:Es; [|discriminate].
    apply scan_string_length in Es as L0.
    destruct (Json.starts ":" (Json.skip_ws r0)) as [r1|] eqn:E1; [|discriminate].
    apply skip_ws_starts_length in E1 as L1.
    destruct (Json.scan_once n (Json.skip_ws r1)) as [[value r2]|] eqn:Ev; [|discriminate].
    destruct (IHs _ _ _ Ev) as [L2 Hvalue]. pose proof (skip_ws_length r1) as L2'.
    cbn zeta in H.
    destruct (Json.starts "}" (Json.skip_ws r2)) as [r3|] eqn:E3.
    { inversion H; subst; clear H. apply skip_ws_starts_length in E3 as L3.
      split; [lia|]. intros [|m] Hm; [lia|]. simpl. rewrite Es, E1.
      rewrite (Hvalue m) by lia. cbn zeta. rewrite E3. reflexivity. }
    destruct (Json.starts "," (Json.skip_ws r2)) as [r3|] eqn:E4; [|discriminate].
    apply skip_ws_starts_length in E4 as L4.
    destruct (Json.starts Json.dquote (Json.skip_ws r3)) as [r4|] eqn:E5; [|discriminate].
    apply skip_ws_starts_length in E5 as L5.
    destruct (IHo _ _ _ _ H) as [L6 Hrest].
    split; [lia|]. intros [|m] Hm; [lia|]. simpl. rewrite Es, E1.
    rewrite (Hvalue m) by lia. cbn zeta. rewrite E3, E4, E5. apply Hrest. lia.
  - intros s acc v r H. simpl in H.
    destruct (Json.scan_once n s) as [[value r0]|] eqn:Ev; [|discriminate].
    destruct (IHs _ _ _ Ev) as [L0 Hvalue].
    destruct (Json.starts "]" (Json.skip_ws r0)) as [r1|] eqn:E1.
    { inversion H; subst; clear H. apply skip_ws_starts_length in E1 as L1.
      split; [lia|]. intros [|m] Hm; [lia|]. simpl.
      rewrite (Hvalue m) by lia. rewrite E1. reflexivity. }
    destruct (Json.starts "," (Json.skip_ws r0)) as [r1|] eqn:E2; [|discriminate].
    apply skip_ws_starts_length in E2 as L2.
    destruct (IHa _ _ _ _ H) as [L3 Hrest]. pose proof (skip_ws_length r1) as L4.
    split; [lia|]. intros [|m] Hm; [lia|]. simpl.
    rewrite (Hvalue m) by lia. rewrite E1, E2. apply Hrest. lia.
Qed.

(** Whatever the fuel a scan succeeded with, [decode] has enough. *)
Lemma decode_complete (s : string) (n : nat) (v : pyval) (r : string) :
  Json.scan_once n (Json.skip_ws s) = Some (v, r) ->
  Json.is_empty (Json.skip_ws r) = true ->
  Json.decode s = Some v.
Proof.
  intros Hscan Hend. unfold Json.decode.
  destruct (fuel_enough n) as (Hs & _ & _).
  destruct (Hs _ _ _ Hscan) as [L Hfuel].
  rewrite Hfuel, Hend; [reflexivity|].
  pose proof (skip_ws_length s). lia.
Qed.

Lemma take_bytes_append (n : nat) (s : string) :
  (fst (take_bytes n s) ++ snd (take_bytes n s))%string = s /\
  String.length (snd (take_bytes n s)) <= String.length s.
Proof.
  revert s. induction n as [|n IH]; intros s; [destruct s; simpl; auto|].
  destruct s as [|c s]; simpl; [auto|].
  destruct (IH s) as [Happ Hlen]. destruct (take_bytes n s) as [h t]; simpl in *.
  split; [rewrite <- Happ; reflexivity | lia].
Qed.

Lemma append_empty_r (s : string) : (s ++ "")%string = s.
Proof.
  induction s as [|c s IH]; [reflexivity|].
  change (String c (s ++ "")%string = String c s). rewrite IH. reflexivity.
Qed.

(** The characters of a string, put together again, are the string: the
    fuel of [str_chars] is enough to reach its end. *)
Lemma str_chars_concat (s : string) : String.concat "" (str_chars s) = s.
Proof.
  unfold str_chars.
  assert (forall n s, String.length s <= n ->
            String.concat "" (str_chars_aux n s) = s) as Hn.
  { induction n as [|n IH]; intros s0 Hlen.
    - destruct s0; [reflexivity | simpl in Hlen; lia].
    - destruct s0 as [|c s0]; [reflexivity|]. simpl in Hlen |- *.
      destruct (take_bytes_append (utf8_width c - 1) s0) as [Happ Htl].
      destruct (take_bytes (utf8_width c - 1) s0) as [h t]; simpl in Happ, Htl.
      specialize (IH t ltac:(lia)).
      destruct (str_chars_aux n t) as [|x xs] eqn:Hrest.
      + simpl in IH |- *. subst t. rewrite append_empty_r in Happ. rewrite Happ. reflexivity.
      + cbn [String.concat] in IH |- *. rewrite IH.
        change (String c (h ++ t)%string = String c s0). rewrite Happ. reflexivity. }
  apply Hn. lia.
Qed.

Lemma scan_atom_wf (s : string) v r : Json.scan_atom s = Some (v, r) -> wf_json v.
Proof.
  unfold Json.scan_atom, Json.scan_number. intros H.
  break_all; constructor.
Qed.

Lemma scan_wf (n : nat) :
  (forall s v r, Json.scan_once n s = Some (v, r) -> wf_json v) /\
  (forall s acc v r, Json.json_object n s acc = Some (v, r) ->
     wf_json (PDict acc) -> wf_json v) /\
  (forall s acc v r, Json.json_array n s acc = Some (v, r) ->
     wf_json (PList acc) -> wf_json v).
Proof.
  induction n as [|n (IHs & IHo & IHa)]; [repeat split; discriminate|].
  split; [|split].
  - intros s v r H. simpl in H.
    destruct (Json.starts Json.dquote s) as [r0|].
    { destruct (Json.scan_string r0) as [[t r1]|]; [|discriminate].
      inversion H; subst. constructor. }
    destruct (Json.starts "{" s) as [r0|].
    { destruct (Json.starts "}" (Json.skip_ws r0)) as [r1|].
      { inversion H; subst. constructor; [exact I | constructor]. }
      destruct (Json.starts Json.dquote (Json.skip_ws r0)) as [r1|]; [|discriminate].
      apply (IHo _ _ _ _ H). constructor; [exact I | constructor]. }
    destruct (Json.starts "[" s) as [r0|].
    { destruct (Json.starts "]" (Json.skip_ws r0)) as [r1|].
      { inversion H; subst. constructor. constructor. }
      apply (IHa _ _ _ _ H). constructor. constructor. }
    eapply scan_atom_wf, H.
  - intros s acc v r H Hacc. simpl in H.
    destruct (Json.scan_string s) as [[key r0]|]; [|discriminate].
    destruct (Json.starts ":" (Json.skip_ws r0)) as [r1|]; [|discriminate].
    destruct (Json.scan_once n (Json.skip_ws r1)) as [[value r2]|] eqn:Ev; [|discriminate].
    cbn zeta in H. apply IHs in Ev.
    assert (wf_json (PDict (dict_store (PStr key) value acc))) as Hacc'.
    { inversion Hacc as [| | | | | |d Hdist Hall]; subst. constructor.
      - apply keys_distinct_store, Hdist.
      - apply dict_store_entries; [eexists; reflexivity | exact Ev | exact Hall]. }
    destruct (Json.starts "}" (Json.skip_ws r2)) as [r3|].
    { inversion H; subst. exact Hacc'. }
    destruct (Json.starts "," (Json.skip_ws r2)) as [r3|]; [|discriminate].
    destruct (Json.starts Json.dquote (Json.skip_ws r3)) as [r4|]; [|discriminate].
    apply (IHo _ _ _ _ H Hacc').
  - intros s acc v r H Hacc. simpl in H.
    destruct (Json.scan_once n s) as [[value r0]|] eqn:Ev; [|discriminate].
    apply IHs in Ev.
    assert (wf_json (PList (acc ++ [value]))) as Hacc'.
    { inversion Hacc as [| | | | |l Hall|]; subst. constructor.
      apply Forall_app. split; [exact Hall | repeat constructor; exact Ev]. }
    destruct (Json.starts "]" (Json.skip_ws r0)) as [r1|].
    { inversion H; subst. exact Hacc'. }
    destruct (Json.starts "," (Json.skip_ws r0)) as [r1|]; [|discriminate].
    apply (IHa _ _ _ _ H Hacc').
Qed.

(** What [json.loads] returns: the keys of every object are strings, and no
    key occurs twice. *)
Lemma decode_wf (s : string) (v : pyval) : Json.decode s = Some v -> wf_json v.
Proof.
  unfold Json.decode.
  destruct (Json.scan_once _ _) as [[v' r]|] eqn:Hscan; [|discriminate].
  destruct (Json.is_empty (Json.skip_ws r)); [|discriminate].
  intros H; inversion H; subst.
  destruct (scan_wf (2 * String.length s + 2)) as (Hs & _ & _). eapply Hs, Hscan.
Qed.

(** ** Sensor flow: a payload that is not JSON *)







(** ** Messages of the remote broker *)

(** C2: the handler of the remote broker's messages calls [run_sensor_flow]
    exactly once, with the message itself, when the retain flag of the message
    is 0, and not at all when it is set. *)
Theorem handle_remote_mqtt_msg_skips_retained
    (cl : client) (ud : userdata) (msg : mqtt_message) :
  sensor_flow_calls (trace (_handle_remote_mqtt_msg cl ud msg)) =
  if (retain msg =? 0)%Z then [msg] else [].
Proof.
  unfold _handle_remote_mqtt_msg.
  rewrite trace_mbind. unfold sensor_flow_calls. rewrite omap_app_trace.
  destruct (retain msg =? 0)%Z; reflexivity.
Qed.

(** ** The topic mapping *)

(** What [parse_topic_mapping] returns is the decoded setting itself, and
    both names were found in it: nothing is put in the place of a missing
    key. *)
Lemma parse_topic_mapping_ok_inv (env : gmap string string) (topic_mapping : pyval) :
  parse_topic_mapping env = Ok topic_mapping ->
  exists setting,
    getenv env "REMOTE_MQTT_BROKER_TOPIC_MAPPING" = Some setting /\
    Json.decode setting = Some topic_mapping /\
    str_in "sensor_topics" topic_mapping = Ok true /\
    str_in "actuator_topics" topic_mapping = Ok true.
Proof.
  unfold parse_topic_mapping. intros H.
  apply bind_ok_inv in H as (tm & Hloads & H).
  apply bind_ok_inv in H as (has_sensor & Hsensor & H).
  destruct has_sensor; simpl in H; [|discriminate].
  apply bind_ok_inv in H as (has_actuator & Hactuator & H).
  destruct has_actuator; simpl in H; [|discriminate].
  inversion H; subst tm; clear H.
  destruct (getenv env "REMOTE_MQTT_BROKER_TOPIC_MAPPING") as [setting|];
    simpl in Hloads; [|discriminate].
  exists setting. destruct (Json.decode setting) as [v|]; [|discriminate].
  inversion Hloads; subst v. auto.
Qed.

Lemma parse_topic_mapping_ok_inv_witness :
  exists setting,
    getenv Fixtures.env_plain "REMOTE_MQTT_BROKER_TOPIC_MAPPING" = Some setting /\
    Json.decode setting = Some Fixtures.mapping /\
    str_in "sensor_topics" Fixtures.mapping = Ok true /\
    str_in "actuator_topics" Fixtures.mapping = Ok true.
Proof.
  exact (parse_topic_mapping_ok_inv Fixtures.env_plain Fixtures.mapping eq_refl).
Defined.



(** ** The actuator datapoints *)

Lemma actuator_datapoint_inv (actuator_topics : pyval)
    (acts acts' : list (pyval * pyval)) (topic : pyval) :
  actuator_datapoint actuator_topics acts topic = Ok acts' ->
  exists entry v,
    py_getitem actuator_topics topic = Ok entry /\
    py_getitem entry (PStr "example_value") = Ok v /\
    hashable topic = true /\
    acts' = dict_store topic v acts.
Proof.
  unfold actuator_datapoint. intros H.
  apply bind_ok_inv in H as (entry & Hentry & H).
  apply bind_ok_inv in H as (v & Hv & H).
  unfold dict_setitem in H.
  destruct (hashable topic) eqn:Hh; [|discriminate].
  exists entry, v. repeat split; congruence.
Qed.

(** The loop of [compute_actuator_datapoints], from any dict it starts
    with: keys stay distinct, every key is an old one or a topic, every topic
    ends with its example value, and a key that equals no topic is left as it
    was. *)
Lemma fold_actuator_datapoints (actuator_topics : pyval) (topics : list pyval) :
  forall acts0 acts : list (pyval * pyval),
  fold_result (actuator_datapoint actuator_topics) topics acts0 = Ok acts ->
  (keys_distinct acts0 -> keys_distinct acts) /\
  (forall k, k ∈ dict_keys acts -> k ∈ dict_keys acts0 \/ k ∈ topics) /\
  (forall topic, topic ∈ topics ->
     exists entry v,
       py_getitem actuator_topics topic = Ok entry /\
       py_getitem entry (PStr "example_value") = Ok v /\
       dict_lookup topic acts = Some v) /\
  (forall k, (forall t, t ∈ topics -> key_eqb k t = false) ->
     dict_lookup k acts = dict_lookup k acts0).
Proof.
  induction topics as [|t topics IH]; intros acts0 acts H; simpl in H.
  - inversion H; subst. repeat split; auto.
    intros topic Hin. apply elem_of_nil in Hin. contradiction.
  - apply bind_ok_inv in H as (acts1 & Hstep & Hrest).
    apply actuator_datapoint_inv in Hstep as (entry & v & Hentry & Hv & Hhash & ->).
    destruct (IH _ _ Hrest) as (Hdist & Hkeys & Hvals & Hframe).
    split; [|split; [|split]].
    + intros Hd. apply Hdist, keys_distinct_store, Hd.
    + intros k Hk. destruct (Hkeys k Hk) as [Hk1|Hk1].
      * apply dict_keys_store in Hk1 as [Hk1| ->]; [auto|].
        right. apply elem_of_cons. auto.
      * right. apply elem_of_cons. auto.
    + intros topic Hin. apply elem_of_cons in Hin as [->|Hin]; [|auto].
      destruct (existsb (key_eqb t) topics) eqn:Hex.
      * apply existsb_exists in Hex as (t' & Hin' & Heq).
        apply list_elem_of_In in Hin'.
        destruct (Hvals t' Hin') as (entry' & v' & Hentry' & Hv' & Hlook).
        exists entry, v. repeat split; auto.
        rewrite (dict_lookup_same t t' acts Heq), Hlook.
        assert (entry = entry') as <- by exact (py_getitem_same _ _ _ _ _ Heq Hentry Hentry').
        congruence.
      * exists entry, v. repeat split; auto.
        rewrite Hframe.
        -- apply dict_lookup_store_eq, key_eqb_refl, Hhash.
        -- intros t' Hin'. apply list_elem_of_In in Hin'.
           destruct (key_eqb t t') eqn:Heq; [|reflexivity].
           assert (existsb (key_eqb t) topics = true) as Habs
             by (apply existsb_exists; eauto).
           congruence.
    + intros k Hk. rewrite Hframe.
      * apply dict_lookup_store_ne, Hk, elem_of_cons. auto.
      * intros t' Hin'. apply Hk, elem_of_cons. auto.
Qed.

(** Over topics that are pairwise different and new to the dict, the loop of
    [compute_actuator_datapoints] adds the topics at the end, in order. *)
Lemma fold_actuator_datapoints_keys (actuator_topics : pyval)
    (d : list (pyval * pyval)) :
  forall acts0 acts : list (pyval * pyval),
  fold_result (actuator_datapoint actuator_topics) (dict_keys d) acts0 = Ok acts ->
  keys_distinct d ->
  (forall k, k ∈ dict_keys d -> dict_lookup k acts0 = None) ->
  dict_keys acts = dict_keys acts0 ++ dict_keys d.
Proof.
  induction d as [|[k x] d IH]; intros acts0 acts H Hdist Hnew; simpl in H.
  - inversion H; subst. simpl. rewrite app_nil_r. reflexivity.
  - apply bind_ok_inv in H as (acts1 & Hstep & Hrest).
    apply actuator_datapoint_inv in Hstep as (entry & v & _ & _ & Hhash & ->).
    destruct Hdist as [Hk Hdist].
    rewrite dict_store_fresh in Hrest by (apply Hnew, elem_of_cons; auto).
    rewrite (IH _ _ Hrest Hdist).
    + unfold dict_keys. rewrite map_app. simpl. rewrite <- app_assoc. reflexivity.
    + intros k' Hin. rewrite dict_lookup_app_none by (apply Hnew, elem_of_cons; auto).
      simpl. rewrite key_eqb_sym, (dict_lookup_none_key k d k' Hk Hin). reflexivity.
Qed.

(** A setting whose actuator topics are a list or a string gets through the
    loop only when the list or string is empty. *)
Lemma fold_actuator_datapoints_sequence (actuator_topics : pyval)
    (topics : list pyval) (acts : list (pyval * pyval)) :
  (forall d, actuator_topics <> PDict d) ->
  py_iter actuator_topics = Ok topics ->
  fold_result (actuator_datapoint actuator_topics) topics [] = Ok acts ->
  topics = [].
Proof.
  intros Hnd Hiter Hfold.
  destruct (fold_actuator_datapoints _ _ _ _ Hfold) as (_ & _ & Hvals & _).
  destruct topics as [|t topics]; [reflexivity|]. exfalso.
  destruct (Hvals t) as (entry & v & Hentry & Hv & _); [apply elem_of_cons; auto|].
  assert (exists d, entry = PDict d) as [d ->].
  { destruct entry; simpl in Hv; try discriminate; eauto. }
  destruct actuator_topics as [| | | |s|l|d0]; simpl in Hiter; try discriminate.
  - injection Hiter as Ht. destruct (str_chars s) as [|c cs]; simpl in Ht; [discriminate Ht|].
    inversion Ht; subst. simpl in Hentry. discriminate Hentry.
  - injection Hiter as ->. cbn [py_getitem] in Hentry.
    destruct (as_index t) as [i|]; [|discriminate Hentry].
    destruct (seq_index _ _) as [j|]; [|discriminate Hentry].
    destruct ((t :: topics) !! j) as [x|] eqn:Hj; [|discriminate Hentry].
    injection Hentry as ->. apply list_elem_of_lookup_2 in Hj.
    destruct (Hvals _ Hj) as (entry' & v' & Hentry' & _). simpl in Hentry'.
    discriminate Hentry'.
  - destruct (Hnd d0). reflexivity.
Qed.

Lemma wf_json_keys_distinct (d : list (pyval * pyval)) :
  wf_json (PDict d) -> keys_distinct d.
Proof. intros H. inversion H; assumption. Qed.

Lemma compute_actuator_datapoints_seeded (topic_mapping : pyval)
    (acts : list (pyval * pyval)) :
  wf_json topic_mapping ->
  compute_actuator_datapoints topic_mapping = Ok acts ->
  exists actuator_topics,
    py_getitem topic_mapping (PStr "actuator_topics") = Ok actuator_topics /\
    seeded_from actuator_topics acts.
Proof.
  unfold compute_actuator_datapoints. intros Hwf H.
  apply bind_ok_inv in H as (actuator_topics & Hat & H).
  apply bind_ok_inv in H as (topics & Htopics & H).
  destruct (fold_actuator_datapoints _ _ _ _ H) as (Hdist & _ & Hvals & _).
  exists actuator_topics. split; [exact Hat|].
  exists topics. split; [exact Htopics|]. split; [|split; [apply Hdist; exact I | exact Hvals]].
  assert (wf_json actuator_topics) as Hwf_at.
  { destruct topic_mapping as [| | | | |l|d]; simpl in Hat; try discriminate Hat.
    destruct (dict_lookup (PStr "actuator_topics") d) as [x|] eqn:Hlook;
      [|discriminate Hat].
    injection Hat as ->. exact (wf_json_lookup _ _ _ Hwf Hlook). }
  destruct actuator_topics as [| | | |s|l|d].
  1-6: assert (topics = []) as -> by
        (refine (fold_actuator_datapoints_sequence _ _ _ _ Htopics H);
         intros ?; discriminate);
       simpl in H; injection H as <-; reflexivity.
  simpl in Htopics. injection Htopics as <-.
  apply (fold_actuator_datapoints_keys _ _ _ _ H (wf_json_keys_distinct _ Hwf_at)).
  intros k _. reflexivity.
Qed.

(** C3: when the constructor gets as far as the constructor of the template,
    the registry it hands over has the two subsets [sensor] and [actuator];
    the sensor subset is empty, and the keys of the actuator subset are the
    actuator topics of the topic mapping, each once and in the order of the
    setting, each with its configured example value. *)
Theorem init_available_datapoints
    (env : gmap string string) (RemoteMqttClient : client)
    (rsf : mqtt_message -> result unit) (tmp_name : string)
    (tr : list event) (inst : instance) :
  __init__ env RemoteMqttClient rsf tmp_name = Run tr (Ok inst) ->
  exists topic_mapping actuator_topics acts,
    parse_topic_mapping env = Ok topic_mapping /\
    py_getitem topic_mapping (PStr "actuator_topics") = Ok actuator_topics /\
    available_datapoints inst =
      PDict [(PStr "sensor", PDict []); (PStr "actuator", PDict acts)] /\
    seeded_from actuator_topics acts.
Proof.
  intros H. apply (f_equal outcome) in H. simpl in H.
  unfold __init__ in H.
  apply outcome_mbind_ok_inv in H as (topic_mapping & Htm & H).
  apply outcome_mbind_ok_inv in H as (remote & _ & H).
  apply outcome_mbind_ok_inv in H as (acts & Hacts & H).
  simpl in Htm, Hacts, H. inversion H; subst inst; clear H.
  assert (wf_json topic_mapping) as Hwf.
  { destruct (parse_topic_mapping_ok_inv _ _ Htm) as (setting & _ & Hdec & _).
    exact (decode_wf _ _ Hdec). }
  destruct (compute_actuator_datapoints_seeded _ _ Hwf Hacts)
    as (actuator_topics & Hat & Hseed).
  exists topic_mapping, actuator_topics, acts. auto.
Qed.

Lemma init_available_datapoints_witness :
  exists topic_mapping actuator_topics acts,
    parse_topic_mapping Fixtures.env_plain = Ok topic_mapping /\
    py_getitem topic_mapping (PStr "actuator_topics") = Ok actuator_topics /\
    PDict [(PStr "sensor", PDict []);
           (PStr "actuator", PDict [(PStr "plant/setpoint", PStr "22.0")])] =
      PDict [(PStr "sensor", PDict []); (PStr "actuator", PDict acts)] /\
    seeded_from actuator_topics acts.
Proof.
  exact (init_available_datapoints Fixtures.env_plain Fixtures.mock_client
           Fixtures.rsf_ok "/tmp/tmpab12" _ _ eq_refl).
Defined.

(** ** The topic mapping and the constructor *)

(** C4 at a setting the check lets through: the JSON array of the two names
    has neither key, yet [parse_topic_mapping] returns it.  The constructor
    then configures and connects the remote client, and only
    [compute_actuator_datapoints] fails, with a [TypeError]. *)
Theorem parse_topic_mapping_accepts_array :
  parse_topic_mapping Fixtures.env_array =
    Ok (PList [PStr "sensor_topics"; PStr "actuator_topics"]) /\
  __init__ Fixtures.env_array Fixtures.mock_client Fixtures.rsf_ok "/tmp/tmpab12" =
    Run [Log INFO (plain "Configuring remote MQTT connection.");
         NewClient (PList [PStr "sensor_topics"; PStr "actuator_topics"]);
         SetOnMessage; SetOnConnect;
         Log INFO (Fmt "Connecting to remote MQTT broker (%s:%s)."
                     [ArgVal (PStr "broker.example"); ArgVal (PStr "1883")]);
         Connect (Some "broker.example") 1883]
        (Raise TypeError).
Proof. split; vm_compute; reflexivity. Qed.

(** A mapping that is [null], or not set at all, is refused with a
    [TypeError] and not with a [ValueError]. *)
Example parse_topic_mapping_null :
  parse_topic_mapping Fixtures.env_null = Raise TypeError /\
  parse_topic_mapping ∅ = Raise TypeError.
Proof. split; vm_compute; reflexivity. Qed.

(** The constructor gets through only with a topic mapping that is a JSON
    object holding both names: with any other setting it ends in an error. *)
Lemma init_requires_topic_keys
    (env : gmap string string) (RemoteMqttClient : client)
    (rsf : mqtt_message -> result unit) (tmp_name : string)
    (tr : list event) (inst : instance) :
  __init__ env RemoteMqttClient rsf tmp_name = Run tr (Ok inst) ->
  exists setting d sensor_topics actuator_topics,
    getenv env "REMOTE_MQTT_BROKER_TOPIC_MAPPING" = Some setting /\
    Json.decode setting = Some (PDict d) /\
    dict_lookup (PStr "sensor_topics") d = Some sensor_topics /\
    dict_lookup (PStr "actuator_topics") d = Some actuator_topics.
Proof.
  intros H. apply (f_equal outcome) in H. simpl in H.
  unfold __init__ in H.
  apply outcome_mbind_ok_inv in H as (topic_mapping & Htm & H).
  apply outcome_mbind_ok_inv in H as (remote & _ & H).
  apply outcome_mbind_ok_inv in H as (acts & Hacts & _).
  simpl in Htm, Hacts.
  apply parse_topic_mapping_ok_inv in Htm as (setting & Henv & Hdec & Hsensor & _).
  unfold compute_actuator_datapoints in Hacts.
  apply bind_ok_inv in Hacts as (actuator_topics & Hat & _).
  destruct topic_mapping as [| | | | |l|d]; simpl in Hat; try discriminate.
  simpl in Hsensor.
  destruct (dict_lookup (PStr "actuator_topics") d) as [at'|] eqn:Hlook; [|discriminate].
  injection Hsensor as Hs. apply bool_decide_eq_true in Hs as [st Hst].
  exists setting, d, st, at'. auto.
Qed.

Lemma init_requires_topic_keys_witness :
  exists setting d sensor_topics actuator_topics,
    getenv Fixtures.env_plain "REMOTE_MQTT_BROKER_TOPIC_MAPPING" = Some setting /\
    Json.decode setting = Some (PDict d) /\
    dict_lookup (PStr "sensor_topics") d = Some sensor_topics /\
    dict_lookup (PStr "actuator_topics") d = Some actuator_topics.
Proof.
  exact (init_requires_topic_keys Fixtures.env_plain Fixtures.mock_client
           Fixtures.rsf_ok "/tmp/tmpab12" _ _ eq_refl).
Defined.

(** ** The remote client *)

(** Case analysis on everything the trace of [create_remote_mqtt_client]
    depends on: the settings, and how the calls on the client end. *)
Ltac client_cases cl :=
  repeat first
    [ rewrite trace_mbind
    | rewrite outcome_mbind
    | progress cbn [trace outcome log call lift raise Eff.pure mret eff_ret from_option id]
    | match goal with
      | |- context [bool_decide ?P] => destruct (bool_decide P)
      | |- context [truthy ?o] => destruct (truthy o)
      | |- context [tls_set cl ?a] => destruct (tls_set cl a)
      | |- context [username_pw_set cl ?u ?p] => destruct (username_pw_set cl u p)
      | |- context [py_int ?x] => destruct (py_int x)
      | |- context [connect cl ?h ?p] => destruct (connect cl h p)
      | |- context [match ?o with Some _ => _ | None => _ end] => is_var o; destruct o
      end ].

Ltac settings env :=
  generalize (getenv env "REMOTE_MQTT_BROKER_USERNAME");
  generalize (getenv env "REMOTE_MQTT_BROKER_PASSWORD");
  generalize (getenv env "REMOTE_MQTT_BROKER_HOST");
  generalize (getenv env "REMOTE_MQTT_BROKER_PORT");
  intros ? ? ? ?.

(** Whatever the settings and the client, configuring the remote client logs
    nothing at warning level. *)
Lemma create_remote_mqtt_client_no_warning
    (env : gmap string string) (self : connector) (topic_mapping : pyval)
    (cl : client) (tmp_name : string) :
  logged WARNING (trace (create_remote_mqtt_client env self topic_mapping cl tmp_name)) = [].
Proof.
  unfold create_remote_mqtt_client.
  generalize (getenv env "REMOTE_MQTT_BROKER_USE_TLS").
  generalize (getenv env "REMOTE_MQTT_BROKER_CA_FILE").
  intros ca tls. settings env.
  client_cases cl; reflexivity.
Qed.

(** C5, as the code has it: with TLS switched on, a CA certificate given as
    content is written to a temporary file and [tls_set] is called once, with
    the name of that file; with no content (not set, or empty) nothing is
    written and [tls_set] is called once, with no CA file.  In neither case is
    anything logged at warning level. *)
Theorem create_remote_mqtt_client_tls
    (env : gmap string string) (self : connector) (topic_mapping : pyval)
    (cl : client) (tmp_name : string) :
  getenv env "REMOTE_MQTT_BROKER_USE_TLS" = Some "TRUE"%string ->
  (forall ca, getenv env "REMOTE_MQTT_BROKER_CA_FILE" = Some ca -> ca <> ""%string ->
     files_written (trace (create_remote_mqtt_client env self topic_mapping cl tmp_name))
       = [(tmp_name, ca)] /\
     tls_calls (trace (create_remote_mqtt_client env self topic_mapping cl tmp_name))
       = [Some tmp_name]) /\
  (truthy (getenv env "REMOTE_MQTT_BROKER_CA_FILE") = false ->
     files_written (trace (create_remote_mqtt_client env self topic_mapping cl tmp_name))
       = [] /\
     tls_calls (trace (create_remote_mqtt_client env self topic_mapping cl tmp_name))
       = [None]) /\
  logged WARNING (trace (create_remote_mqtt_client env self topic_mapping cl tmp_name)) = [].
Proof.
  intros Htls. split; [|split]; [| |apply create_remote_mqtt_client_no_warning].
  - intros ca Hca Hne.
    unfold create_remote_mqtt_client. rewrite Htls, Hca.
    rewrite (bool_decide_eq_true_2 _ eq_refl).
    assert (truthy (Some ca) = true) as ->.
    { simpl. apply negb_true_iff, String.eqb_neq, Hne. }
    settings env. client_cases cl; split; reflexivity.
  - intros Hca.
    unfold create_remote_mqtt_client. rewrite Htls, Hca.
    rewrite (bool_decide_eq_true_2 _ eq_refl).
    settings env. client_cases cl; split; reflexivity.
Qed.

Lemma create_remote_mqtt_client_tls_witness :
  (forall ca,
     getenv Fixtures.env_tls_ca "REMOTE_MQTT_BROKER_CA_FILE" = Some ca -> ca <> ""%string ->
     files_written (trace (create_remote_mqtt_client Fixtures.env_tls_ca Fixtures.self_plain
                             Fixtures.mapping Fixtures.mock_client "/tmp/tmpab12"))
       = [("/tmp/tmpab12"%string, ca)] /\
     tls_calls (trace (create_remote_mqtt_client Fixtures.env_tls_ca Fixtures.self_plain
                         Fixtures.mapping Fixtures.mock_client "/tmp/tmpab12"))
       = [Some "/tmp/tmpab12"%string]) /\
  (truthy (getenv Fixtures.env_tls_ca "REMOTE_MQTT_BROKER_CA_FILE") = false ->
     files_written (trace (create_remote_mqtt_client Fixtures.env_tls_ca Fixtures.self_plain
                             Fixtures.mapping Fixtures.mock_client "/tmp/tmpab12"))
       = [] /\
     tls_calls (trace (create_remote_mqtt_client Fixtures.env_tls_ca Fixtures.self_plain
                         Fixtures.mapping Fixtures.mock_client "/tmp/tmpab12"))
       = [None]) /\
  logged WARNING (trace (create_remote_mqtt_client Fixtures.env_tls_ca Fixtures.self_plain
                           Fixtures.mapping Fixtures.mock_client "/tmp/tmpab12")) = [].
Proof.
  apply (create_remote_mqtt_client_tls Fixtures.env_tls_ca Fixtures.self_plain
           Fixtures.mapping Fixtures.mock_client "/tmp/tmpab12").
  reflexivity.
Defined.

(** C5, as the claim has it, fails in its last part: with TLS switched on and
    no CA certificate, [tls_set] is called with no CA file, and the log has no
    entry at warning level. *)
Lemma tls_without_ca_is_not_warned :
  getenv Fixtures.env_tls_no_ca "REMOTE_MQTT_BROKER_USE_TLS" = Some "TRUE"%string /\
  getenv Fixtures.env_tls_no_ca "REMOTE_MQTT_BROKER_CA_FILE" = None /\
  tls_calls (trace (create_remote_mqtt_client Fixtures.env_tls_no_ca Fixtures.self_plain
                      Fixtures.mapping Fixtures.mock_client "/tmp/tmpab12")) = [None] /\
  logged WARNING (trace (create_remote_mqtt_client Fixtures.env_tls_no_ca Fixtures.self_plain
                           Fixtures.mapping Fixtures.mock_client "/tmp/tmpab12")) = [].
Proof. repeat split; vm_compute; reflexivity. Qed.

(** ** Subscriptions on connect *)

Lemma subscriptions_app (l1 l2 : list event) :
  subscriptions (l1 ++ l2) = subscriptions l1 ++ subscriptions l2.
Proof. apply omap_app. Qed.

Lemma for_each_cons {A : Type} (x : A) (xs : list A) (body : A -> M unit) :
  outcome (for_each (x :: xs) body) =
    match outcome (body x) with
    | Ok _ => outcome (for_each xs body)
    | Raise e => Raise e
    end /\
  trace (for_each (x :: xs) body) =
    trace (body x) ++
    match outcome (body x) with
    | Ok _ => trace (for_each xs body)
    | Raise _ => []
    end.
Proof.
  simpl for_each. unfold and_then.
  destruct (outcome (body x)); simpl; split; try reflexivity.
  symmetry. apply app_nil_r.
Qed.

(** The loop of [on_remote_connect] over topics the client accepts. *)
Lemma for_each_subscribe (cl : client) (topics : list pyval) :
  (forall t, t ∈ topics -> subscribe cl t 2 = Ok tt) ->
  outcome (for_each topics (fun topic =>
             log INFO "Subscribing to topic on remote broker: %s" [ArgVal topic];;
             call (Subscribe topic 2) (subscribe cl topic 2))) = Ok tt /\
  subscriptions (trace (for_each topics (fun topic =>
             log INFO "Subscribing to topic on remote broker: %s" [ArgVal topic];;
             call (Subscribe topic 2) (subscribe cl topic 2)))) =
    map (fun t => (t, 2%Z)) topics.
Proof.
  induction topics as [|t topics IH]; intros Hok; [split; reflexivity|].
  assert (subscribe cl t 2 = Ok tt) as Ht by (apply Hok, elem_of_cons; auto).
  destruct IH as [IHout IHsub].
  { intros t' Hin. apply Hok, elem_of_cons. auto. }
  match goal with
  | |- outcome (for_each _ ?body) = _ /\ _ =>
      destruct (for_each_cons t topics body) as [-> ->]
  end.
  rewrite outcome_mbind, trace_mbind. cbn [log call outcome trace]. rewrite Ht.
  split; [exact IHout|].
  rewrite subscriptions_app, IHsub. reflexivity.
Qed.

(** C7: on a connect with return code 0 the connector subscribes to every
    topic of [sensor_topics], in order, each with quality of service 2, and to
    nothing else; on any other return code it subscribes to nothing and raises
    a [RuntimeError]. *)
Theorem on_remote_connect_subscribes
    (env : gmap string string) (cl : client) (ud : userdata) (flags : pyval) (rc : Z)
    (sensor_topics : pyval) (topics : list pyval) :
  py_getitem (ud_topic_mapping ud) (PStr "sensor_topics") = Ok sensor_topics ->
  py_iter sensor_topics = Ok topics ->
  (forall t, t ∈ topics -> subscribe cl t 2 = Ok tt) ->
  (rc = 0%Z ->
     outcome (on_remote_connect env cl ud flags rc) = Ok tt /\
     subscriptions (trace (on_remote_connect env cl ud flags rc)) =
       map (fun t => (t, 2%Z)) topics) /\
  (rc <> 0%Z ->
     (exists msg, outcome (on_remote_connect env cl ud flags rc) = Raise (RuntimeError msg)) /\
     subscriptions (trace (on_remote_connect env cl ud flags rc)) = []).
Proof.
  intros Hst Htopics Hok. unfold on_remote_connect. split.
  - intros ->. cbn [Z.eqb].
    rewrite outcome_mbind, trace_mbind. cbn [log outcome trace].
    rewrite Hst, lift_ok_bind, Htopics, lift_ok_bind.
    destruct (for_each_subscribe cl topics Hok) as [Hout Hsub].
    split; [exact Hout|].
    rewrite subscriptions_app, Hsub. reflexivity.
  - intros Hrc. apply Z.eqb_neq in Hrc. rewrite Hrc.
    split; [eexists|]; reflexivity.
Qed.

Lemma on_remote_connect_subscribes_witness :
  (0%Z = 0%Z ->
     outcome (on_remote_connect Fixtures.env_plain Fixtures.mock_client
                (Userdata Fixtures.self_plain Fixtures.mapping) PNone 0) = Ok tt /\
     subscriptions (trace (on_remote_connect Fixtures.env_plain Fixtures.mock_client
                (Userdata Fixtures.self_plain Fixtures.mapping) PNone 0)) =
       map (fun t => (t, 2%Z)) [PStr "plant/temperature"]) /\
  (0%Z <> 0%Z ->
     (exists msg,
        outcome (on_remote_connect Fixtures.env_plain Fixtures.mock_client
                   (Userdata Fixtures.self_plain Fixtures.mapping) PNone 0)
        = Raise (RuntimeError msg)) /\
     subscriptions (trace (on_remote_connect Fixtures.env_plain Fixtures.mock_client
                (Userdata Fixtures.self_plain Fixtures.mapping) PNone 0)) = []).
Proof.
  apply (on_remote_connect_subscribes Fixtures.env_plain Fixtures.mock_client
           (Userdata Fixtures.self_plain Fixtures.mapping) PNone 0
           (PDict [(PStr "plant/temperature", PDict [])]) [PStr "plant/temperature"]).
  - reflexivity.
  - reflexivity.
  - intros t _. reflexivity.
Defined.

Lemma for_each_subscribe_qos (cl : client) (topics : list pyval) :
  Forall (fun sub => sub.2 = 2%Z /\ sub.1 ∈ topics)
    (subscriptions (trace (for_each topics (fun topic =>
       log INFO "Subscribing to topic on remote broker: %s" [ArgVal topic];;
       call (Subscribe topic 2) (subscribe cl topic 2))))).
Proof.
  induction topics as [|t topics IH]; [constructor|].
  match goal with
  | |- context [for_each _ ?body] => destruct (for_each_cons t topics body) as [_ ->]
  end.
  rewrite outcome_mbind, trace_mbind. cbn [log call outcome trace].
  rewrite subscriptions_app. apply Forall_app. split.
  - repeat constructor.
  - destruct (subscribe cl t 2); [|constructor].
    eapply Forall_impl; [exact IH|]. intros sub [Hq Hin]. split; [exact Hq|].
    apply elem_of_cons. auto.
Qed.

(** Whatever the client does and whatever the return code, every subscription
    the connect handler makes has quality of service 2. *)
Lemma on_remote_connect_qos_2
    (env : gmap string string) (cl : client) (ud : userdata) (flags : pyval) (rc : Z) :
  Forall (fun sub => sub.2 = 2%Z)
    (subscriptions (trace (on_remote_connect env cl ud flags rc))).
Proof.
  unfold on_remote_connect. destruct (rc =? 0)%Z; [|constructor].
  rewrite trace_mbind. cbn [log outcome trace]. rewrite subscriptions_app.
  apply Forall_app. split; [constructor|].
  destruct (py_getitem (ud_topic_mapping ud) (PStr "sensor_topics")) as [st|e];
    [|constructor].
  rewrite lift_ok_bind.
  destruct (py_iter st) as [topics|e]; [|constructor].
  rewrite lift_ok_bind.
  eapply Forall_impl; [apply for_each_subscribe_qos|]. intros sub [Hq _]. exact Hq.
Qed.

(** ** Commands *)



(** ** Heartbeats *)

Lemma latest_is_greatest (field : Admin.ConnectorHeartbeat -> Z)
    (rows : list Admin.ConnectorHeartbeat) (hb : Admin.ConnectorHeartbeat) :
  Admin.latest field rows = Ok hb ->
  In hb rows /\ forall hb', In hb' rows -> (field hb' <= field hb)%Z.
Proof.
  revert hb. induction rows as [|r rows IH]; intros hb H; simpl in H; [discriminate|].
  destruct (Admin.latest field rows) as [hb1|e] eqn:Hrest.
  - destruct (IH hb1 eq_refl) as [Hin Hmax].
    destruct (field r <? field hb1)%Z eqn:Hlt; inversion H; subst hb; clear H.
    + apply Z.ltb_lt in Hlt. split; [right; exact Hin|].
      intros hb' [<-|Hin']; [lia | auto].
    + apply Z.ltb_ge in Hlt. split; [left; reflexivity|].
      intros hb' [<-|Hin']; [lia|]. specialize (Hmax hb' Hin'). lia.
  - inversion H; subst hb; clear H. split; [left; reflexivity|].
    intros hb' [<-|Hin']; [lia|].
    destruct rows as [|r' rows']; [contradiction|].
    simpl in Hrest. destruct (Admin.latest field rows'); [|discriminate].
    destruct (field r' <? field a)%Z; discriminate.
Qed.

Lemma latest_exists (field : Admin.ConnectorHeartbeat -> Z)
    (rows : list Admin.ConnectorHeartbeat) :
  rows <> [] -> exists hb, Admin.latest field rows = Ok hb.
Proof.
  destruct rows as [|r rows]; [congruence|]. intros _. simpl.
  destruct (Admin.latest field rows) as [hb1|e]; [|eauto].
  destruct (field r <? field hb1)%Z; eauto.
Qed.



(** A connector that has no heartbeat yet has no answer: the query raises
    [DoesNotExist]. *)
Lemma alive_without_heartbeat
    (objects : list Admin.ConnectorHeartbeat) (obj_id current_time : Z) :
  Admin.filter_connector objects obj_id = [] ->
  Admin.alive objects obj_id current_time = Raise DoesNotExist.
Proof. intros Hnone. unfold Admin.alive. rewrite Hnone. reflexivity. Qed.

Lemma alive_without_heartbeat_witness :
  Admin.alive Fixtures.heartbeats 3 150 = Raise DoesNotExist.
Proof. apply (alive_without_heartbeat Fixtures.heartbeats 3 150). reflexivity. Defined.

(** ** Locks of the charge stations *)

Lemma foldl_create_lock (names : list string) :
  forall st : gmap string Keba.lock * nat,
  NoDup names ->
  (foldl Keba.create_lock st names).2 = (st.2 + List.length names)%nat /\
  (forall i name, names !! i = Some name ->
     (foldl Keba.create_lock st names).1 !! name = Some (Keba.Lock (st.2 + i) false)) /\
  (forall name, name ∉ names ->
     (foldl Keba.create_lock st names).1 !! name = st.1 !! name).
Proof.
  induction names as [|n names IH]; intros st Hnd; simpl.
  - split; [lia|]. split; [intros i name H; discriminate | auto].
  - apply NoDup_cons in Hnd as [Hn Hnd].
    destruct (IH (Keba.create_lock st n) Hnd) as (Hnext & Hin & Hout).
    change (Keba.create_lock st n).2 with (S st.2) in Hnext, Hin.
    change (Keba.create_lock st n).1 with (<[n:=Keba.Lock st.2 false]> st.1) in Hout.
    split; [|split].
    + rewrite Hnext. lia.
    + intros [|i] name Hi; simpl in Hi.
      * inversion Hi; subst name. rewrite (Hout n Hn).
        rewrite lookup_insert_eq. f_equal. f_equal. lia.
      * rewrite (Hin i name Hi). f_equal. f_equal. lia.
    + intros name Hname. apply not_elem_of_cons in Hname as [Hne Hname].
      rewrite (Hout name Hname). apply lookup_insert_ne. congruence.
Qed.

(** C9: the constructor makes one lock for each configured charge station.
    The map of locks has exactly the names of the stations as keys, as many
    lock objects are made as there are stations, every station finds a lock
    that was made there and is free, and two stations never share a lock. *)
Theorem keba_p30_locks_one_per_station
    (charge_stations : gmap string string) (next : nat) :
  dom (Keba.keba_p30_locks charge_stations next).1 = dom charge_stations /\
  (Keba.keba_p30_locks charge_stations next).2 = (next + size charge_stations)%nat /\
  (forall name, is_Some (charge_stations !! name) ->
     exists l, (Keba.keba_p30_locks charge_stations next).1 !! name = Some l /\
       Keba.locked l = false /\
       (next <= Keba.lock_id l < (Keba.keba_p30_locks charge_stations next).2)%nat) /\
  (forall name1 name2 l1 l2,
     (Keba.keba_p30_locks charge_stations next).1 !! name1 = Some l1 ->
     (Keba.keba_p30_locks charge_stations next).1 !! name2 = Some l2 ->
     name1 <> name2 -> Keba.lock_id l1 <> Keba.lock_id l2).
Proof.
  unfold Keba.keba_p30_locks.
  pose proof (NoDup_fst_map_to_list charge_stations) as Hnd.
  assert (forall name, name ∈ (map_to_list charge_stations).*1 <->
                       is_Some (charge_stations !! name)) as Hnames.
  { intros name. rewrite list_elem_of_fmap. split.
    - intros ([k v] & -> & Hin). apply elem_of_map_to_list in Hin. simpl. eauto.
    - intros [v Hv]. exists (name, v). split; [reflexivity|].
      apply elem_of_map_to_list, Hv. }
  assert (List.length (map_to_list charge_stations).*1 = size charge_stations) as Hlen.
  { rewrite length_fmap. apply length_map_to_list. }
  revert Hnd Hnames Hlen. generalize ((map_to_list charge_stations).*1).
  intros names Hnd Hnames Hlen.
  destruct (foldl_create_lock names (∅, next) Hnd) as (Hnext & Hin & Hout).
  simpl in Hnext, Hin, Hout.
  assert (forall name l, (foldl Keba.create_lock (∅, next) names).1 !! name = Some l ->
            exists i, names !! i = Some name /\ l = Keba.Lock (next + i) false) as Hinv.
  { intros name l Hl. destruct (decide (name ∈ names)) as [Hmem|Hmem].
    - apply list_elem_of_lookup in Hmem as [i Hi]. exists i. split; [exact Hi|].
      rewrite (Hin i name Hi) in Hl. congruence.
    - rewrite (Hout name Hmem), lookup_empty in Hl. discriminate. }
  split; [|split; [|split]].
  - apply set_eq. intros name. rewrite !elem_of_dom, <- Hnames. split.
    + intros [l Hl]. destruct (Hinv name l Hl) as (i & Hi & _).
      apply list_elem_of_lookup. eauto.
    + intros Hmem. apply list_elem_of_lookup in Hmem as [i Hi].
      rewrite (Hin i name Hi). eauto.
  - rewrite Hnext, Hlen. reflexivity.
  - intros name Hsome. apply Hnames, list_elem_of_lookup in Hsome as [i Hi].
    exists (Keba.Lock (next + i) false). split; [apply Hin, Hi|].
    split; [reflexivity|].
    simpl. rewrite Hnext. apply lookup_lt_Some in Hi. lia.
  - intros name1 name2 l1 l2 H1 H2 Hne.
    destruct (Hinv _ _ H1) as (i & Hi & ->). destruct (Hinv _ _ H2) as (j & Hj & ->).
    simpl. intros Heq. assert (i = j) as -> by lia. congruence.
Qed.

(** The test [test_locks_created]: both charge stations of the setting have
    a lock, and the two locks are different objects. *)
Example test_locks_created :
  (Keba.keba_p30_locks Fixtures.charge_stations 0).1 !! "test_1"%string
    = Some (Keba.Lock 0 false) /\
  (Keba.keba_p30_locks Fixtures.charge_stations 0).1 !! "test_2"%string
    = Some (Keba.Lock 1 false).
Proof. split; vm_compute; reflexivity. Qed.

(** ** The two parsing modes of the socket connector *)





(** The two tests of the socket connector: in both modes the leaf [2.0] of
    the test message comes out as the string [2.0]. *)
Example test_json_and_yaml_parsed_correctly :
  Socket.parse_raw_msg (fun s => Json.loads (PStr s)) Yaml.load Fixtures.scalar_str
    Socket.JSON (Socket.raw_envelope Fixtures.test_msg_json (PInt 1618256642000)) =
  Ok (Socket.parsed_envelope
        (PDict [(PStr "dummy_dp", PDict [(PStr "sensor_1", PStr "2.0")])])
        (PInt 1618256642000)) /\
  Socket.parse_raw_msg (fun s => Json.loads (PStr s)) Yaml.load Fixtures.scalar_str
    Socket.YAML (Socket.raw_envelope Fixtures.test_msg_yaml (PInt 1618256642000)) =
  Ok (Socket.parsed_envelope
        (PDict [(PStr "dummy_dp", PDict [(PStr "sensor_1", PStr "2.0")])])
        (PInt 1618256642000)).
Proof. split; vm_compute; reflexivity. Qed.

(** ** The sensor flow, from the message of the broker to the parsed message *)






(** ** The topic mapping: what is accepted, and which error a refusal is *)

(** A setting that is a JSON object is accepted exactly when it has both
    names, and is then returned as it was decoded: what stands under the two
    names is not looked at. *)
Lemma parse_topic_mapping_object
    (env : gmap string string) (setting : string) (d : list (pyval * pyval)) :
  getenv env "REMOTE_MQTT_BROKER_TOPIC_MAPPING" = Some setting ->
  Json.decode setting = Some (PDict d) ->
  (parse_topic_mapping env = Ok (PDict d) <->
   is_Some (dict_lookup (PStr "sensor_topics") d) /\
   is_Some (dict_lookup (PStr "actuator_topics") d)) /\
  (forall topic_mapping, parse_topic_mapping env = Ok topic_mapping ->
     topic_mapping = PDict d).
Proof.
  intros Henv Hdec. unfold parse_topic_mapping. rewrite Henv. simpl. rewrite Hdec. simpl.
  destruct (dict_lookup (PStr "sensor_topics") d) as [st|] eqn:Hst;
    destruct (dict_lookup (PStr "actuator_topics") d) as [at'|] eqn:Hat; simpl.
  all: rewrite ?Hat; simpl.
  all: split; [split|].
  all: try (intros H; discriminate H).
  all: try (intros [[? H1] [? H2]]; discriminate).
  all: try (intros topic_mapping H; congruence).
  all: eauto.
Qed.

Lemma parse_topic_mapping_object_witness :
  (parse_topic_mapping Fixtures.env_plain = Ok Fixtures.mapping <->
   is_Some (dict_lookup (PStr "sensor_topics")
              [(PStr "sensor_topics", PDict [(PStr "plant/temperature", PDict [])]);
               (PStr "actuator_topics",
                PDict [(PStr "plant/setpoint",
                        PDict [(PStr "example_value", PStr "22.0")])])]) /\
   is_Some (dict_lookup (PStr "actuator_topics")
              [(PStr "sensor_topics", PDict [(PStr "plant/temperature", PDict [])]);
               (PStr "actuator_topics",
                PDict [(PStr "plant/setpoint",
                        PDict [(PStr "example_value", PStr "22.0")])])])) /\
  (forall topic_mapping, parse_topic_mapping Fixtures.env_plain = Ok topic_mapping ->
     topic_mapping = Fixtures.mapping).
Proof.
  apply (parse_topic_mapping_object Fixtures.env_plain Fixtures.mapping_json); reflexivity.
Defined.



(** ** The actuator datapoints of a mapping that is an object *)

Lemma keys_distinct_app_inv (d1 d2 : list (pyval * pyval)) :
  keys_distinct (d1 ++ d2) ->
  keys_distinct d2 /\
  forall k, k ∈ dict_keys d1 -> dict_lookup k d2 = None.
Proof.
  induction d1 as [|[k v] d1 IH]; simpl.
  - intros H. split; [exact H|]. intros k Hk. apply elem_of_nil in Hk. contradiction.
  - intros [Hk Hd]. destruct (IH Hd) as [Hd2 Hnone]. split; [exact Hd2|].
    intros k' Hk'. apply elem_of_cons in Hk' as [->|Hk']; [|auto].
    clear -Hk. induction d1 as [|[k1 v1] d1 IH]; simpl in *; [exact Hk|].
    destruct (key_eqb k k1); [discriminate | auto].
Qed.

Lemma dict_lookup_keys_none (k : pyval) (d : list (pyval * pyval)) :
  (forall k', k' ∈ dict_keys d -> key_eqb k k' = false) -> dict_lookup k d = None.
Proof.
  induction d as [|[k0 v0] d IH]; simpl; intros H; [reflexivity|].
  rewrite (H k0) by (apply elem_of_cons; auto).
  apply IH. intros k' Hk'. apply H, elem_of_cons. auto.
Qed.

(** In a dict without repeated keys the key at a position finds the value at
    that position, and equals no key before it. *)
Lemma dict_lookup_middle (pre suf : list (pyval * pyval)) (k v : pyval) :
  keys_distinct (pre ++ (k, v) :: suf) -> hashable k = true ->
  dict_lookup k (pre ++ (k, v) :: suf) = Some v /\
  forall k', k' ∈ dict_keys pre -> key_eqb k k' = false.
Proof.
  intros Hd Hh.
  assert (forall k', k' ∈ dict_keys pre -> key_eqb k k' = false) as Hpre.
  { intros k' Hk'. destruct (keys_distinct_app_inv _ _ Hd) as [_ Hnone].
    specialize (Hnone k' Hk'). simpl in Hnone.
    rewrite key_eqb_sym. destruct (key_eqb k' k); [discriminate | reflexivity]. }
  split; [|exact Hpre].
  rewrite dict_lookup_app_none by (apply dict_lookup_keys_none, Hpre).
  simpl. rewrite key_eqb_refl by exact Hh. reflexivity.
Qed.

Lemma wf_json_dict_keys_hashable (d : list (pyval * pyval)) (k v : pyval) :
  wf_json (PDict d) -> (k, v) ∈ d -> hashable k = true.
Proof.
  intros Hwf Hin. inversion Hwf as [| | | | | |d' _ Hall]; subst.
  rewrite Forall_forall in Hall. destruct (Hall _ Hin) as [[s Hs] _].
  simpl in Hs. subst k. reflexivity.
Qed.

(** The loop of [compute_actuator_datapoints] over the keys of an object of
    actuator topics, from a position on: it adds, in order, each topic with
    its example value, or it ends with the error of the first entry that has
    no example value. *)
Lemma fold_actuator_datapoints_object (a : list (pyval * pyval)) :
  wf_json (PDict a) ->
  forall suf pre acc : list (pyval * pyval),
  a = pre ++ suf ->
  dict_keys acc = dict_keys pre ->
  match fold_result (actuator_datapoint (PDict a)) (dict_keys suf) acc with
  | Ok acts =>
      exists vs, acts = acc ++ vs /\
        Forall2 (fun te tv => tv.1 = te.1 /\
                   py_getitem te.2 (PStr "example_value") = Ok tv.2) suf vs
  | Raise e =>
      exists te, te ∈ suf /\ py_getitem te.2 (PStr "example_value") = Raise e
  end.
Proof.
  intros Hwf. pose proof (wf_json_keys_distinct _ Hwf) as Hdist.
  induction suf as [|[k entry] suf IH]; intros pre acc Ha Hkeys; simpl.
  - exists []. rewrite app_nil_r. split; [reflexivity | constructor].
  - assert (hashable k = true) as Hh.
    { apply (wf_json_dict_keys_hashable a k entry Hwf). rewrite Ha.
      apply elem_of_app. right. apply elem_of_cons. auto. }
    rewrite Ha in Hdist.
    destruct (dict_lookup_middle pre suf k entry Hdist Hh) as [Hlook Hpre].
    assert (dict_lookup k acc = None) as Hnew.
    { apply dict_lookup_keys_none. rewrite Hkeys. exact Hpre. }
    assert (actuator_datapoint (PDict a) acc k =
            match py_getitem entry (PStr "example_value") with
            | Ok v => Ok (acc ++ [(k, v)])
            | Raise e => Raise e
            end) as Hstep.
    { unfold actuator_datapoint. cbn [py_getitem]. rewrite Hh.
      rewrite <- Ha in Hlook. rewrite Hlook. cbn [mbind result_bind Py.bind].
      destruct (py_getitem entry (PStr "example_value")) as [v|e];
        cbn [mbind result_bind Py.bind]; [|reflexivity].
      unfold dict_setitem. rewrite Hh, (dict_store_fresh k v acc Hnew). reflexivity. }
    rewrite Hstep. clear Hstep.
    destruct (py_getitem entry (PStr "example_value")) as [v|e] eqn:Hv;
      cbn [mbind result_bind Py.bind].
    + specialize (IH (pre ++ [(k, entry)]) (acc ++ [(k, v)])).
      rewrite <- app_assoc in IH. specialize (IH Ha).
      unfold dict_keys in IH, Hkeys. rewrite !map_app, Hkeys in IH.
      specialize (IH eq_refl).
      destruct (fold_result _ _ _) as [acts|e].
      * destruct IH as (vs & -> & Hvs). exists ((k, v) :: vs).
        rewrite <- app_assoc. split; [reflexivity|].
        constructor; [split; [reflexivity | exact Hv] | exact Hvs].
      * destruct IH as (te & Hin & Hte). exists te. split; [|exact Hte].
        apply elem_of_cons. auto.
    + exists (k, entry). split; [apply elem_of_cons; auto | exact Hv].
Qed.

Lemma example_values_unique (a vs vs' : list (pyval * pyval)) :
  Forall2 (fun te tv => tv.1 = te.1 /\ py_getitem te.2 (PStr "example_value") = Ok tv.2) a vs ->
  Forall2 (fun te tv => tv.1 = te.1 /\ py_getitem te.2 (PStr "example_value") = Ok tv.2) a vs' ->
  vs = vs'.
Proof.
  intros H. revert vs'. induction H as [|[k e] [k1 v1] a vs [Hk Hv] _ IH]; intros vs' H'.
  - inversion H'. reflexivity.
  - inversion H' as [|? [k2 v2] ? vs2 [Hk' Hv'] Hrest]; subst. simpl in *.
    f_equal; [|auto]. f_equal; congruence.
Qed.

(** When the actuator topics of the mapping are an object, as the README has
    them, [compute_actuator_datapoints] returns [acts] exactly when [acts]
    lists the topics of the setting, in the order of the setting, each with
    the [example_value] of its entry. *)
Lemma compute_actuator_datapoints_object
    (topic_mapping : pyval) (actuator_topics acts : list (pyval * pyval)) :
  py_getitem topic_mapping (PStr "actuator_topics") = Ok (PDict actuator_topics) ->
  wf_json (PDict actuator_topics) ->
  (compute_actuator_datapoints topic_mapping = Ok acts <->
   Forall2 (fun te tv => tv.1 = te.1 /\ py_getitem te.2 (PStr "example_value") = Ok tv.2)
     actuator_topics acts).
Proof.
  intros Hat Hwf. unfold compute_actuator_datapoints. rewrite Hat.
  cbn [mbind result_bind Py.bind py_iter].
  pose proof (fold_actuator_datapoints_object actuator_topics Hwf actuator_topics [] []
                eq_refl eq_refl) as Hfold.
  destruct (fold_result _ _ _) as [acts'|e].
  - destruct Hfold as (vs & -> & Hvs). simpl. split.
    + intros H. injection H as <-. exact Hvs.
    + intros H. f_equal. exact (example_values_unique _ _ _ Hvs H).
  - destruct Hfold as (te & Hin & Hte). split; [discriminate|].
    intros H. exfalso.
    apply list_elem_of_lookup in Hin as [i Hi].
    destruct (Forall2_lookup_l _ _ _ _ _ H Hi) as (tv & _ & _ & Hok).
    congruence.
Qed.

Lemma compute_actuator_datapoints_object_witness :
  compute_actuator_datapoints Fixtures.mapping = Ok [(PStr "plant/setpoint", PStr "22.0")] <->
  Forall2 (fun te tv => tv.1 = te.1 /\ py_getitem te.2 (PStr "example_value") = Ok tv.2)
    [(PStr "plant/setpoint", PDict [(PStr "example_value", PStr "22.0")])]
    [(PStr "plant/setpoint", PStr "22.0")].
Proof.
  apply (compute_actuator_datapoints_object Fixtures.mapping).
  - reflexivity.
  - constructor; simpl; [auto|].
    repeat constructor; simpl; try (eexists; reflexivity); auto.
Defined.

(** When every entry of the actuator topics is an object and one of them has
    no [example_value], [compute_actuator_datapoints] ends in
    [KeyError('example_value')]: no datapoint is made up for that topic, and
    none is returned for the others. *)
Lemma compute_actuator_datapoints_missing_example_value
    (topic_mapping : pyval) (actuator_topics : list (pyval * pyval)) :
  py_getitem topic_mapping (PStr "actuator_topics") = Ok (PDict actuator_topics) ->
  wf_json (PDict actuator_topics) ->
  Forall (fun te => exists entry, te.2 = PDict entry) actuator_topics ->
  Exists (fun te => exists entry,
            te.2 = PDict entry /\ dict_lookup (PStr "example_value") entry = None)
    actuator_topics ->
  compute_actuator_datapoints topic_mapping = Raise (KeyError (PStr "example_value")).
Proof.
  intros Hat Hwf Hobj Hbad. unfold compute_actuator_datapoints. rewrite Hat.
  cbn [mbind result_bind Py.bind py_iter].
  pose proof (fold_actuator_datapoints_object actuator_topics Hwf actuator_topics [] []
                eq_refl eq_refl) as Hfold.
  destruct (fold_result _ _ _) as [acts'|e].
  - exfalso. destruct Hfold as (vs & _ & Hvs).
    apply Exists_exists in Hbad as (te & Hin & entry & Hte & Hnone).
    apply list_elem_of_lookup in Hin as [i Hi].
    destruct (Forall2_lookup_l _ _ _ _ _ Hvs Hi) as (tv & _ & _ & Hok).
    rewrite Hte in Hok. simpl in Hok. rewrite Hnone in Hok. discriminate.
  - destruct Hfold as (te & Hin & Hte).
    rewrite Forall_forall in Hobj. destruct (Hobj te Hin) as [entry Hentry].
    rewrite Hentry in Hte. simpl in Hte.
    destruct (dict_lookup (PStr "example_value") entry); congruence.
Qed.

Lemma compute_actuator_datapoints_missing_example_value_witness :
  compute_actuator_datapoints Fixtures.mapping_no_example =
  Raise (KeyError (PStr "example_value")).
Proof.
  apply (compute_actuator_datapoints_missing_example_value Fixtures.mapping_no_example
           Fixtures.actuator_topics_no_example).
  - reflexivity.
  - constructor; simpl; [auto|].
    repeat constructor; simpl; try (eexists; reflexivity); auto.
  - repeat constructor; eexists; reflexivity.
  - apply Exists_cons_tl, Exists_cons_hd. eexists. split; reflexivity.
Defined.

(** ** The remote client: credentials, the log, the connection *)

(** As [client_cases], with the outcome of a call taken from a hypothesis
    when there is one. *)
Ltac client_run cl :=
  repeat first
    [ rewrite trace_mbind
    | rewrite outcome_mbind
    | progress cbn [trace outcome log call lift raise Eff.pure mret eff_ret from_option id]
    | match goal with
      | H : forall ca, tls_set cl ca = _ |- context [tls_set cl ?a] => rewrite (H a)
      | H : forall u p, username_pw_set cl u p = _ |- context [username_pw_set cl ?u ?p] =>
          rewrite (H u p)
      | H : py_int ?x = _ |- context [py_int ?x] => rewrite H
      | H : connect cl ?h ?p = _ |- context [connect cl ?h ?p] => rewrite H
      end
    | match goal with
      | |- context [bool_decide ?P] => destruct (bool_decide P)
      | |- context [truthy ?o] => destruct (truthy o)
      | |- context [tls_set cl ?a] => destruct (tls_set cl a)
      | |- context [username_pw_set cl ?u ?p] => destruct (username_pw_set cl u p)
      | |- context [py_int ?x] => destruct (py_int x)
      | |- context [connect cl ?h ?p] => destruct (connect cl h p)
      | |- context [match ?o with Some _ => _ | None => _ end] => is_var o; destruct o
      end ].

(** The credentials of the remote broker.  [username_pw_set] is called at
    most once, and only with the configured username and password; it is not
    called without a username, even when a password is set; with a username,
    and a TLS step that does not fail, it is called. *)
Lemma create_remote_mqtt_client_credentials
    (env : gmap string string) (self : connector) (topic_mapping : pyval)
    (cl : client) (tmp_name : string) :
  (forall ca, tls_set cl ca = Ok tt) ->
  credentials_set (trace (create_remote_mqtt_client env self topic_mapping cl tmp_name)) =
  match getenv env "REMOTE_MQTT_BROKER_USERNAME" with
  | Some username =>
      if String.eqb username "" then []
      else [(username, getenv env "REMOTE_MQTT_BROKER_PASSWORD")]
  | None => []
  end.
Proof.
  intros Htls. unfold create_remote_mqtt_client.
  generalize (getenv env "REMOTE_MQTT_BROKER_USE_TLS").
  generalize (getenv env "REMOTE_MQTT_BROKER_CA_FILE").
  intros ca tls. settings env.
  destruct o2 as [username|]; simpl truthy.
  - destruct (String.eqb username ""); simpl negb.
    all: client_run cl; reflexivity.
  - client_run cl; reflexivity.
Qed.

Lemma create_remote_mqtt_client_credentials_witness :
  credentials_set
    (trace (create_remote_mqtt_client Fixtures.env_credentials Fixtures.self_plain
              Fixtures.mapping Fixtures.mock_client "/tmp/tmpab12")) =
  [("bemcom", Some "s3cret")].
Proof.
  rewrite (create_remote_mqtt_client_credentials Fixtures.env_credentials
             Fixtures.self_plain Fixtures.mapping Fixtures.mock_client "/tmp/tmpab12")
    by reflexivity.
  reflexivity.
Defined.

(** Only the exact setting [TRUE] switches TLS on: with any other value, and
    with none, [tls_set] is not called and no file is written. *)
Lemma create_remote_mqtt_client_without_tls
    (env : gmap string string) (self : connector) (topic_mapping : pyval)
    (cl : client) (tmp_name : string) :
  getenv env "REMOTE_MQTT_BROKER_USE_TLS" <> Some "TRUE" ->
  tls_calls (trace (create_remote_mqtt_client env self topic_mapping cl tmp_name)) = [] /\
  files_written (trace (create_remote_mqtt_client env self topic_mapping cl tmp_name)) = [].
Proof.
  intros Htls. unfold create_remote_mqtt_client.
  rewrite (bool_decide_eq_false_2 _ Htls).
  settings env. client_cases cl; split; reflexivity.
Qed.

Lemma create_remote_mqtt_client_without_tls_witness :
  tls_calls (trace (create_remote_mqtt_client Fixtures.env_tls_lower_case
                      Fixtures.self_plain Fixtures.mapping Fixtures.mock_client
                      "/tmp/tmpab12")) = [] /\
  files_written (trace (create_remote_mqtt_client Fixtures.env_tls_lower_case
                          Fixtures.self_plain Fixtures.mapping Fixtures.mock_client
                          "/tmp/tmpab12")) = [].
Proof.
  apply (create_remote_mqtt_client_without_tls Fixtures.env_tls_lower_case).
  vm_compute. discriminate.
Defined.

(** What goes to the log.  Every argument of every log entry of
    [create_remote_mqtt_client] is the username, the length of the password,
    the host or the port: neither the password nor the content of the CA
    certificate is handed to the logger. *)
Lemma create_remote_mqtt_client_log_arguments
    (env : gmap string string) (self : connector) (topic_mapping : pyval)
    (cl : client) (tmp_name : string) :
  Forall (fun entry =>
    Forall (fun arg =>
      arg = ArgVal (of_getenv (getenv env "REMOTE_MQTT_BROKER_USERNAME")) \/
      (exists password,
         getenv env "REMOTE_MQTT_BROKER_PASSWORD" = Some password /\
         arg = ArgVal (PInt (Z.of_nat (List.length (str_chars password))))) \/
      arg = ArgVal (of_getenv (getenv env "REMOTE_MQTT_BROKER_HOST")) \/
      arg = ArgVal (of_getenv (getenv env "REMOTE_MQTT_BROKER_PORT")))
      (fmt_args entry))
    (log_entries (trace (create_remote_mqtt_client env self topic_mapping cl tmp_name))).
Proof.
  unfold create_remote_mqtt_client.
  generalize (getenv env "REMOTE_MQTT_BROKER_USE_TLS").
  generalize (getenv env "REMOTE_MQTT_BROKER_CA_FILE").
  intros ca tls. settings env.
  client_cases cl; cbn [log_entries omap app option_bind mbind];
    repeat match goal with |- Forall _ _ => constructor end; eauto 8.
Qed.

(** A run of [create_remote_mqtt_client] that returns has called [connect]
    once, with the configured host. *)
Lemma create_remote_mqtt_client_connect_calls
    (env : gmap string string) (self : connector) (topic_mapping : pyval)
    (cl remote : client) (tmp_name : string) :
  outcome (create_remote_mqtt_client env self topic_mapping cl tmp_name) = Ok remote ->
  exists port,
    connect_calls (trace (create_remote_mqtt_client env self topic_mapping cl tmp_name)) =
      [(getenv env "REMOTE_MQTT_BROKER_HOST", port)].
Proof.
  unfold create_remote_mqtt_client.
  generalize (getenv env "REMOTE_MQTT_BROKER_USE_TLS").
  generalize (getenv env "REMOTE_MQTT_BROKER_CA_FILE").
  generalize (getenv env "REMOTE_MQTT_BROKER_USERNAME").
  generalize (getenv env "REMOTE_MQTT_BROKER_PASSWORD").
  intros pw user ca tls.
  destruct (py_int (of_getenv (getenv env "REMOTE_MQTT_BROKER_PORT"))) as [port|e] eqn:Hport.
  - client_run cl; intros H; try discriminate H; exists port; reflexivity.
  - client_run cl; intros H; discriminate H.
Qed.

(** The connection.  When [create_remote_mqtt_client] returns, it returns the
    client it was given, [connect] was called once, with the configured host
    and the port read as an integer, and that call is the last thing it
    did. *)
Lemma create_remote_mqtt_client_connects
    (env : gmap string string) (self : connector) (topic_mapping : pyval)
    (cl remote : client) (tmp_name : string) :
  outcome (create_remote_mqtt_client env self topic_mapping cl tmp_name) = Ok remote ->
  remote = cl /\
  exists port,
    py_int (of_getenv (getenv env "REMOTE_MQTT_BROKER_PORT")) = Ok port /\
    connect cl (getenv env "REMOTE_MQTT_BROKER_HOST") port = Ok tt /\
    connect_calls (trace (create_remote_mqtt_client env self topic_mapping cl tmp_name)) =
      [(getenv env "REMOTE_MQTT_BROKER_HOST", port)] /\
    last (trace (create_remote_mqtt_client env self topic_mapping cl tmp_name)) =
      Some (Connect (getenv env "REMOTE_MQTT_BROKER_HOST") port).
Proof.
  unfold create_remote_mqtt_client.
  generalize (getenv env "REMOTE_MQTT_BROKER_USE_TLS").
  generalize (getenv env "REMOTE_MQTT_BROKER_CA_FILE").
  generalize (getenv env "REMOTE_MQTT_BROKER_USERNAME").
  generalize (getenv env "REMOTE_MQTT_BROKER_PASSWORD").
  intros pw user ca tls.
  destruct (py_int (of_getenv (getenv env "REMOTE_MQTT_BROKER_PORT"))) as [port|e] eqn:Hport.
  - destruct (connect cl (getenv env "REMOTE_MQTT_BROKER_HOST") port) as [[]|e] eqn:Hconn.
    + client_run cl; intros H; try discriminate H;
        (split; [congruence|]); exists port; repeat split; try assumption; reflexivity.
    + client_run cl; intros H; discriminate H.
  - client_run cl; intros H; discriminate H.
Qed.

Lemma create_remote_mqtt_client_connects_witness :
  Fixtures.mock_client = Fixtures.mock_client /\
  exists port,
    py_int (of_getenv (getenv Fixtures.env_tls_ca "REMOTE_MQTT_BROKER_PORT")) = Ok port /\
    connect Fixtures.mock_client (getenv Fixtures.env_tls_ca "REMOTE_MQTT_BROKER_HOST") port =
      Ok tt /\
    connect_calls (trace (create_remote_mqtt_client Fixtures.env_tls_ca Fixtures.self_plain
                            Fixtures.mapping Fixtures.mock_client "/tmp/tmpab12")) =
      [(getenv Fixtures.env_tls_ca "REMOTE_MQTT_BROKER_HOST", port)] /\
    last (trace (create_remote_mqtt_client Fixtures.env_tls_ca Fixtures.self_plain
                   Fixtures.mapping Fixtures.mock_client "/tmp/tmpab12")) =
      Some (Connect (getenv Fixtures.env_tls_ca "REMOTE_MQTT_BROKER_HOST") port).
Proof.
  apply (create_remote_mqtt_client_connects Fixtures.env_tls_ca Fixtures.self_plain
           Fixtures.mapping Fixtures.mock_client Fixtures.mock_client "/tmp/tmpab12").
  reflexivity.
Defined.

(** A port that is not set, or is not the text of an integer, stops
    [create_remote_mqtt_client] before it connects: [connect] is not called,
    and the error of [int] is the outcome when the calls before went well. *)
Lemma create_remote_mqtt_client_bad_port
    (env : gmap string string) (self : connector) (topic_mapping : pyval)
    (cl : client) (tmp_name : string) (e : exn) :
  py_int (of_getenv (getenv env "REMOTE_MQTT_BROKER_PORT")) = Raise e ->
  connect_calls (trace (create_remote_mqtt_client env self topic_mapping cl tmp_name)) = [] /\
  is_ok (outcome (create_remote_mqtt_client env self topic_mapping cl tmp_name)) = false /\
  ((forall ca, tls_set cl ca = Ok tt) ->
   (forall username password, username_pw_set cl username password = Ok tt) ->
   outcome (create_remote_mqtt_client env self topic_mapping cl tmp_name) = Raise e).
Proof.
  intros Hport. unfold create_remote_mqtt_client.
  generalize (getenv env "REMOTE_MQTT_BROKER_USE_TLS").
  generalize (getenv env "REMOTE_MQTT_BROKER_CA_FILE").
  generalize (getenv env "REMOTE_MQTT_BROKER_USERNAME").
  generalize (getenv env "REMOTE_MQTT_BROKER_PASSWORD").
  generalize (getenv env "REMOTE_MQTT_BROKER_HOST").
  intros host pw user ca tls.
  split; [|split].
  - client_run cl; reflexivity.
  - client_run cl; reflexivity.
  - intros Htls Hcred. client_run cl; reflexivity.
Qed.

Lemma create_remote_mqtt_client_bad_port_witness :
  connect_calls (trace (create_remote_mqtt_client Fixtures.env_null Fixtures.self_plain
                          PNone Fixtures.mock_client "/tmp/tmpab12")) = [] /\
  is_ok (outcome (create_remote_mqtt_client Fixtures.env_null Fixtures.self_plain
                    PNone Fixtures.mock_client "/tmp/tmpab12")) = false /\
  ((forall ca, tls_set Fixtures.mock_client ca = Ok tt) ->
   (forall username password,
      username_pw_set Fixtures.mock_client username password = Ok tt) ->
   outcome (create_remote_mqtt_client Fixtures.env_null Fixtures.self_plain
              PNone Fixtures.mock_client "/tmp/tmpab12") = Raise TypeError).
Proof.
  apply (create_remote_mqtt_client_bad_port Fixtures.env_null Fixtures.self_plain
           PNone Fixtures.mock_client "/tmp/tmpab12" TypeError).
  reflexivity.
Defined.

(** ** The constructor: the order of its checks *)

(** The constructor looks at the topic mapping first.  With a mapping that
    [parse_topic_mapping] refuses it ends at once, with that error, and has
    done nothing: no client was made, nothing was logged.  Otherwise the first
    thing it does is to make the remote client, with the mapping that
    [parse_topic_mapping] returned as its user data. *)
Lemma init_checks_mapping_first
    (env : gmap string string) (RemoteMqttClient : client)
    (rsf : mqtt_message -> result unit) (tmp_name : string) :
  match parse_topic_mapping env with
  | Raise e => __init__ env RemoteMqttClient rsf tmp_name = Run [] (Raise e)
  | Ok topic_mapping =>
      exists rest,
        trace (__init__ env RemoteMqttClient rsf tmp_name) =
        Log INFO (plain "Configuring remote MQTT connection.") ::
        NewClient topic_mapping :: rest
  end.
Proof.
  unfold __init__.
  destruct (parse_topic_mapping env) as [topic_mapping|e]; [|reflexivity].
  rewrite lift_ok_bind, trace_mbind. unfold create_remote_mqtt_client.
  rewrite !trace_mbind. cbn [log call trace outcome app]. eauto.
Qed.

(** The entries of the actuator topics are looked at last.  A mapping that
    [parse_topic_mapping] lets through and whose actuator topics
    [compute_actuator_datapoints] refuses makes the constructor fail with the
    error of [compute_actuator_datapoints], and by then the remote client has
    been configured and [connect] has been called. *)
Lemma init_connects_before_actuator_datapoints
    (env : gmap string string) (RemoteMqttClient remote : client)
    (rsf : mqtt_message -> result unit) (tmp_name : string)
    (topic_mapping : pyval) (e : exn) :
  parse_topic_mapping env = Ok topic_mapping ->
  outcome (create_remote_mqtt_client env
             (Connector (bool_decide (getenv env "REMOTE_MQTT_BROKER_PARSE_JSON" = Some "TRUE"))
                rsf)
             topic_mapping RemoteMqttClient tmp_name) = Ok remote ->
  compute_actuator_datapoints topic_mapping = Raise e ->
  outcome (__init__ env RemoteMqttClient rsf tmp_name) = Raise e /\
  exists port,
    connect_calls (trace (__init__ env RemoteMqttClient rsf tmp_name)) =
      [(getenv env "REMOTE_MQTT_BROKER_HOST", port)].
Proof.
  intros Htm Hremote Hacts.
  destruct (create_remote_mqtt_client_connect_calls _ _ _ _ _ _ Hremote) as (port & Hcalls).
  unfold __init__. rewrite Htm, lift_ok_bind.
  rewrite outcome_mbind, trace_mbind, Hremote.
  rewrite outcome_mbind, trace_mbind. cbn [lift outcome trace]. rewrite Hacts.
  split; [reflexivity|]. exists port.
  rewrite !app_nil_r. exact Hcalls.
Qed.

Lemma init_connects_before_actuator_datapoints_witness :
  outcome (__init__ Fixtures.env_array Fixtures.mock_client Fixtures.rsf_ok "/tmp/tmpab12") =
    Raise TypeError /\
  exists port,
    connect_calls
      (trace (__init__ Fixtures.env_array Fixtures.mock_client Fixtures.rsf_ok
                "/tmp/tmpab12")) =
      [(getenv Fixtures.env_array "REMOTE_MQTT_BROKER_HOST", port)].
Proof.
  apply (init_connects_before_actuator_datapoints Fixtures.env_array Fixtures.mock_client
           Fixtures.mock_client Fixtures.rsf_ok "/tmp/tmpab12"
           (PList [PStr "sensor_topics"; PStr "actuator_topics"]) TypeError);
    reflexivity.
Defined.



(** ** Subscriptions the client refuses *)

Lemma for_each_app {A : Type} (xs ys : list A) (body : A -> M unit) :
  outcome (for_each (xs ++ ys) body) =
    match outcome (for_each xs body) with
    | Ok _ => outcome (for_each ys body)
    | Raise e => Raise e
    end /\
  trace (for_each (xs ++ ys) body) =
    trace (for_each xs body) ++
    match outcome (for_each xs body) with
    | Ok _ => trace (for_each ys body)
    | Raise _ => []
    end.
Proof.
  induction xs as [|x xs [IHo IHt]]; [split; reflexivity|].
  change ((x :: xs) ++ ys) with (x :: (xs ++ ys)).
  destruct (for_each_cons x (xs ++ ys) body) as [-> ->].
  destruct (for_each_cons x xs body) as [-> ->].
  destruct (outcome (body x)); [|split; [reflexivity | rewrite !app_nil_r; reflexivity]].
  rewrite IHo, IHt, app_assoc. split; reflexivity.
Qed.

(** The loop of [on_remote_connect] ends at the first topic the client
    refuses: the topics before it are subscribed, the refused one was tried,
    the topics after it are not subscribed, and the error of the client is
    the outcome. *)
Lemma on_remote_connect_refused_topic
    (env : gmap string string) (cl : client) (ud : userdata) (flags : pyval)
    (sensor_topics : pyval) (before after : list pyval) (topic : pyval) (e : exn) :
  py_getitem (ud_topic_mapping ud) (PStr "sensor_topics") = Ok sensor_topics ->
  py_iter sensor_topics = Ok (before ++ topic :: after) ->
  (forall t, t ∈ before -> subscribe cl t 2 = Ok tt) ->
  subscribe cl topic 2 = Raise e ->
  outcome (on_remote_connect env cl ud flags 0) = Raise e /\
  subscriptions (trace (on_remote_connect env cl ud flags 0)) =
    map (fun t => (t, 2%Z)) (before ++ [topic]).
Proof.
  intros Hst Htopics Hok Hbad. unfold on_remote_connect. cbn [Z.eqb].
  rewrite outcome_mbind, trace_mbind. cbn [log outcome trace].
  rewrite Hst, lift_ok_bind, Htopics, lift_ok_bind.
  match goal with
  | |- outcome (for_each _ ?body) = _ /\ _ =>
      destruct (for_each_app before (topic :: after) body) as [-> ->];
      destruct (for_each_cons topic after body) as [-> ->]
  end.
  destruct (for_each_subscribe cl before Hok) as [-> Hsub].
  rewrite outcome_mbind, trace_mbind. cbn [log call outcome trace]. rewrite Hbad.
  split; [reflexivity|].
  rewrite !subscriptions_app, Hsub, map_app. reflexivity.
Qed.

Lemma on_remote_connect_refused_topic_witness :
  outcome (on_remote_connect Fixtures.env_plain Fixtures.strict_client
             (Userdata Fixtures.self_plain Fixtures.mapping_bad_filter) PNone 0) =
    Raise Fixtures.invalid_filter /\
  subscriptions (trace (on_remote_connect Fixtures.env_plain Fixtures.strict_client
                          (Userdata Fixtures.self_plain Fixtures.mapping_bad_filter)
                          PNone 0)) =
    map (fun t => (t, 2%Z)) ([PStr "plant/temperature"] ++ [PStr "plant/#/flow"]).
Proof.
  apply (on_remote_connect_refused_topic Fixtures.env_plain Fixtures.strict_client
           (Userdata Fixtures.self_plain Fixtures.mapping_bad_filter) PNone
           (PList [PStr "plant/temperature"; PStr "plant/#/flow"; PStr "plant/flow"])
           [PStr "plant/temperature"] [PStr "plant/flow"] (PStr "plant/#/flow")).
  - reflexivity.
  - reflexivity.
  - intros t Ht. apply list_elem_of_singleton in Ht. subst t. reflexivity.
  - reflexivity.
Defined.

(** ** From the setting to the subscriptions *)

(** The connector subscribes to what its setting names.  When the constructor
    has gone through, the user data of the remote client hold the decoded
    setting; and when, as in the README, the sensor topics of the setting are
    an object, a connect with return code 0 subscribes to the keys of that
    object, in the order of the setting, and to nothing else (the client
    accepting the subscriptions). *)
Lemma init_then_connect_subscribes
    (env : gmap string string) (cl : client)
    (rsf : mqtt_message -> result unit) (tmp_name : string)
    (tr : list event) (inst : instance)
    (topic_mapping : pyval) (sensor_topics : list (pyval * pyval)) (flags : pyval) :
  __init__ env cl rsf tmp_name = Run tr (Ok inst) ->
  parse_topic_mapping env = Ok topic_mapping ->
  py_getitem topic_mapping (PStr "sensor_topics") = Ok (PDict sensor_topics) ->
  (forall t, subscribe cl t 2 = Ok tt) ->
  NewClient topic_mapping ∈ tr /\
  remote_mqtt_client inst = cl /\
  outcome (on_remote_connect env (remote_mqtt_client inst)
             (Userdata (inst_self inst) topic_mapping) flags 0) = Ok tt /\
  subscriptions (trace (on_remote_connect env (remote_mqtt_client inst)
                          (Userdata (inst_self inst) topic_mapping) flags 0)) =
    map (fun entry => (entry.1, 2%Z)) sensor_topics.
Proof.
  intros Hinit Htm Hst Hok.
  pose proof (f_equal trace Hinit) as Htr. pose proof (f_equal outcome Hinit) as Hout.
  cbn [trace outcome] in Htr, Hout. clear Hinit.
  unfold __init__ in Htr, Hout. rewrite Htm, lift_ok_bind in Htr, Hout.
  rewrite trace_mbind in Htr.
  apply outcome_mbind_ok_inv in Hout as (remote & Hremote & Hout).
  apply outcome_mbind_ok_inv in Hout as (acts & _ & Hout).
  cbn [mret eff_ret Eff.pure outcome] in Hout. injection Hout as <-.
  cbn [remote_mqtt_client inst_self].
  assert (remote = cl) as ->.
  { revert Hremote. unfold create_remote_mqtt_client.
    generalize (getenv env "REMOTE_MQTT_BROKER_USE_TLS").
    generalize (getenv env "REMOTE_MQTT_BROKER_CA_FILE").
    intros ca tls. settings env.
    client_cases cl; intros H; try discriminate H; congruence. }
  split; [|split; [reflexivity|]].
  - rewrite <- Htr. apply elem_of_app. left.
    unfold create_remote_mqtt_client. rewrite !trace_mbind.
    cbn [log call trace outcome app]. apply elem_of_cons. right. apply elem_of_cons. auto.
  - unfold on_remote_connect. cbn [Z.eqb ud_topic_mapping].
    rewrite outcome_mbind, trace_mbind. cbn [log outcome trace].
    rewrite Hst, lift_ok_bind. cbn [py_iter]. rewrite lift_ok_bind.
    destruct (for_each_subscribe cl (dict_keys sensor_topics)) as [Hout Hsub].
    { intros t _. apply Hok. }
    split; [exact Hout|].
    rewrite subscriptions_app, Hsub. unfold dict_keys. rewrite map_map. reflexivity.
Qed.

Lemma init_then_connect_subscribes_witness :
  NewClient Fixtures.mapping ∈
    trace (__init__ Fixtures.env_plain Fixtures.mock_client Fixtures.rsf_ok "/tmp/tmpab12") /\
  Fixtures.mock_client = Fixtures.mock_client /\
  outcome (on_remote_connect Fixtures.env_plain Fixtures.mock_client
             (Userdata (Connector true Fixtures.rsf_ok) Fixtures.mapping) PNone 0) = Ok tt /\
  subscriptions (trace (on_remote_connect Fixtures.env_plain Fixtures.mock_client
                          (Userdata (Connector true Fixtures.rsf_ok) Fixtures.mapping)
                          PNone 0)) =
    map (fun entry => (entry.1, 2%Z)) [(PStr "plant/temperature", PDict [])].
Proof.
  apply (init_then_connect_subscribes Fixtures.env_plain Fixtures.mock_client
           Fixtures.rsf_ok "/tmp/tmpab12" _
           (Instance (Connector true Fixtures.rsf_ok) Fixtures.mock_client
              (PDict [(PStr "sensor", PDict []);
                      (PStr "actuator", PDict [(PStr "plant/setpoint", PStr "22.0")])]))
           Fixtures.mapping [(PStr "plant/temperature", PDict [])] PNone).
  - reflexivity.
  - reflexivity.
  - reflexivity.
  - intros t. reflexivity.
Defined.

(** ** The columns of the connector admin *)

(** The three heartbeat columns of a connector agree.  Either the connector
    has no heartbeat and all three raise [DoesNotExist]; or [last_heartbeat]
    and [next_heartbeat] show the greatest value of their field, [alive] is
    the comparison of the current time with what [next_heartbeat] shows, and,
    when no heartbeat of the connector announces its successor for a time
    before itself, the last heartbeat shown is not after the next one. *)
Lemma heartbeat_columns_agree
    (datetime_iso_format : Z -> bool -> string)
    (objects : list Admin.ConnectorHeartbeat) (obj_id current_time : Z) :
  (Admin.filter_connector objects obj_id = [] /\
   (forall pretty,
      Admin.ConnectorAdmin.last_heartbeat datetime_iso_format objects obj_id pretty =
        Raise DoesNotExist /\
      Admin.ConnectorAdmin.next_heartbeat datetime_iso_format objects obj_id pretty =
        Raise DoesNotExist) /\
   Admin.alive objects obj_id current_time = Raise DoesNotExist) \/
  (exists last_hb next_hb : Z,
     Admin.ConnectorAdmin.last_heartbeat datetime_iso_format objects obj_id false =
       Ok (Admin.Moment last_hb) /\
     Admin.ConnectorAdmin.last_heartbeat datetime_iso_format objects obj_id true =
       Ok (Admin.Text (datetime_iso_format last_hb true)) /\
     Admin.ConnectorAdmin.next_heartbeat datetime_iso_format objects obj_id false =
       Ok (Admin.Moment next_hb) /\
     Admin.ConnectorAdmin.next_heartbeat datetime_iso_format objects obj_id true =
       Ok (Admin.Text (datetime_iso_format next_hb true)) /\
     Admin.alive objects obj_id current_time = Ok (bool_decide (current_time <= next_hb)%Z) /\
     (forall hb, In hb objects -> Admin.connector hb = obj_id ->
        (Admin.last_heartbeat hb <= last_hb)%Z /\ (Admin.next_heartbeat hb <= next_hb)%Z) /\
     ((forall hb, In hb objects -> Admin.connector hb = obj_id ->
         (Admin.last_heartbeat hb <= Admin.next_heartbeat hb)%Z) ->
      (last_hb <= next_hb)%Z)).
Proof.
  unfold Admin.ConnectorAdmin.last_heartbeat, Admin.ConnectorAdmin.next_heartbeat, Admin.alive.
  destruct (Admin.filter_connector objects obj_id) as [|row rows] eqn:Hrows.
  - left. split; [reflexivity|]. split; [intros pretty; split; reflexivity | reflexivity].
  - right. rewrite <- Hrows.
    assert (Admin.filter_connector objects obj_id <> []) as Hne by (rewrite Hrows; discriminate).
    destruct (latest_exists Admin.last_heartbeat _ Hne) as [hbl Hl].
    destruct (latest_exists Admin.next_heartbeat _ Hne) as [hbn Hn].
    rewrite Hl, Hn. cbn [mbind result_bind Py.bind].
    exists (Admin.last_heartbeat hbl), (Admin.next_heartbeat hbn).
    destruct (latest_is_greatest _ _ _ Hl) as [Hlin Hlmax].
    destruct (latest_is_greatest _ _ _ Hn) as [Hnin Hnmax].
    assert (forall hb, In hb objects -> Admin.connector hb = obj_id ->
              In hb (Admin.filter_connector objects obj_id)) as Hmem.
    { intros hb Hin Hid. apply filter_In. split; [exact Hin | apply Z.eqb_eq, Hid]. }
    repeat split.
    + f_equal. destruct (current_time <=? Admin.next_heartbeat hbn)%Z eqn:Hle.
      * apply Z.leb_le in Hle. rewrite bool_decide_eq_true_2; auto.
      * apply Z.leb_gt in Hle. rewrite bool_decide_eq_false_2; [reflexivity | lia].
    + apply Hlmax, Hmem; assumption.
    + apply Hnmax, Hmem; assumption.
    + intros Hrow. apply filter_In in Hlin as [Hlin Hlid]. apply Z.eqb_eq in Hlid.
      specialize (Hrow hbl Hlin Hlid).
      specialize (Hnmax hbl (Hmem hbl Hlin Hlid)). lia.
Qed.

(** ** The topics of the mapped datapoints *)

Lemma first_row_filter {A : Type} (f : A -> bool) (rows : list A) :
  match Admin.ConnectorAdmin.first_row (List.filter f rows) with
  | Ok row => In row rows /\ f row = true
  | Raise e => e = IndexError /\ forall row, In row rows -> f row = false
  end.
Proof.
  induction rows as [|r rows IH]; simpl.
  - split; [reflexivity | intros row []].
  - destruct (f r) eqn:Hr; simpl; [auto|].
    destruct (Admin.ConnectorAdmin.first_row (List.filter f rows)) as [row|e].
    + destruct IH. auto.
    + destruct IH as [-> IH]. split; [reflexivity|]. intros row [<-|Hin]; auto.
Qed.

(** One turn of the loop: the key of the mapper gets the topic of the mapper
    when the connector has a datapoint with that key, and the turn ends in
    [IndexError] when it has none. *)
Lemma key_topic_mapping_step (available : list Admin.ConnectorAvailableDatapoints) (obj_id : Z)
    (m : gmap string string) (mapper : Admin.ConnectorDatapointMapper) :
  match Admin.ConnectorAdmin.key_topic_mapping available obj_id m mapper with
  | Ok m' =>
      m' = <[Admin.dm_datapoint_key_in_connector mapper := Admin.mqtt_topic mapper]> m /\
      exists dp, In dp available /\ Admin.ad_connector dp = obj_id /\
        Admin.ad_datapoint_key_in_connector dp = Admin.dm_datapoint_key_in_connector mapper
  | Raise e =>
      e = IndexError /\
      forall dp, In dp available -> Admin.ad_connector dp = obj_id ->
        Admin.ad_datapoint_key_in_connector dp <> Admin.dm_datapoint_key_in_connector mapper
  end.
Proof.
  unfold Admin.ConnectorAdmin.key_topic_mapping.
  match goal with
  | |- context [List.filter ?f available] => pose proof (first_row_filter f available) as H
  end.
  destruct (Admin.ConnectorAdmin.first_row _) as [dp|e]; cbn [mbind result_bind Py.bind].
  - destruct H as [Hin Hf]. apply andb_true_iff in Hf as [Hid Hkey].
    apply Z.eqb_eq in Hid. apply String.eqb_eq in Hkey.
    split; [rewrite Hkey; reflexivity | eauto].
  - destruct H as [-> H]. split; [reflexivity|].
    intros dp Hin Hid Hkey. specialize (H dp Hin).
    apply andb_false_iff in H as [H|H].
    + apply Z.eqb_neq in H. contradiction.
    + apply String.eqb_neq in H. contradiction.
Qed.

(** The loop of [mqtt_message_topics] from any dict it starts with. *)
Lemma fold_key_topic_mapping (available : list Admin.ConnectorAvailableDatapoints) (obj_id : Z)
    (mappers : list Admin.ConnectorDatapointMapper) :
  forall m0 : gmap string string,
  match MqttConnector.fold_result (Admin.ConnectorAdmin.key_topic_mapping available obj_id)
          mappers m0 with
  | Ok m =>
      m = foldl (fun acc mapper =>
                   <[Admin.dm_datapoint_key_in_connector mapper := Admin.mqtt_topic mapper]> acc)
            m0 mappers /\
      forall mapper, In mapper mappers ->
        exists dp, In dp available /\ Admin.ad_connector dp = obj_id /\
          Admin.ad_datapoint_key_in_connector dp = Admin.dm_datapoint_key_in_connector mapper
  | Raise e =>
      e = IndexError /\
      exists mapper, In mapper mappers /\
        forall dp, In dp available -> Admin.ad_connector dp = obj_id ->
          Admin.ad_datapoint_key_in_connector dp <> Admin.dm_datapoint_key_in_connector mapper
  end.
Proof.
  induction mappers as [|mp mappers IH]; intros m0; simpl.
  - split; [reflexivity | intros mapper []].
  - pose proof (key_topic_mapping_step available obj_id m0 mp) as Hstep.
    destruct (Admin.ConnectorAdmin.key_topic_mapping available obj_id m0 mp) as [m1|e];
      cbn [mbind result_bind Py.bind].
    + destruct Hstep as [-> Hdp]. specialize (IH (<[Admin.dm_datapoint_key_in_connector mp :=
                                                     Admin.mqtt_topic mp]> m0)).
      destruct (MqttConnector.fold_result _ mappers _) as [m|e].
      * destruct IH as [-> IH]. split; [reflexivity|].
        intros mapper [<-|Hin]; auto.
      * destruct IH as [-> (mapper & Hin & Hnone)]. split; [reflexivity|].
        exists mapper. split; [right; exact Hin | exact Hnone].
    + destruct Hstep as [-> Hnone]. split; [reflexivity|].
      exists mp. split; [left; reflexivity | exact Hnone].
Qed.

(** What a run of insertions leaves under a key: the value of the last
    insertion for that key, or what was there before when there is none. *)
Lemma foldl_insert_lookup (mappers : list Admin.ConnectorDatapointMapper) :
  forall (m0 : gmap string string) (key topic : string),
  foldl (fun acc mapper =>
           <[Admin.dm_datapoint_key_in_connector mapper := Admin.mqtt_topic mapper]> acc)
    m0 mappers !! key = Some topic <->
  (exists before mapper after,
     mappers = before ++ mapper :: after /\
     Admin.dm_datapoint_key_in_connector mapper = key /\ Admin.mqtt_topic mapper = topic /\
     Forall (fun later => Admin.dm_datapoint_key_in_connector later <> key) after) \/
  (m0 !! key = Some topic /\
   Forall (fun later => Admin.dm_datapoint_key_in_connector later <> key) mappers).
Proof.
  induction mappers as [|mp mappers IH]; intros m0 key topic; simpl.
  - split.
    + intros H. right. split; [exact H | constructor].
    + intros [(before & mapper & after & Hl & _) | [H _]]; [|exact H].
      destruct before; discriminate Hl.
  - rewrite IH. split.
    + intros [(before & mapper & after & -> & Hk & Ht & Hlater) | [Hm0 Hall]].
      * left. exists (mp :: before), mapper, after. auto.
      * destruct (decide (Admin.dm_datapoint_key_in_connector mp = key)) as [Heq|Hne].
        -- rewrite <- Heq, lookup_insert_eq in Hm0. injection Hm0 as Ht.
           left. exists [], mp, mappers. auto.
        -- rewrite lookup_insert_ne in Hm0 by exact Hne.
           right. split; [exact Hm0 | constructor; assumption].
    + intros [(before & mapper & after & Hl & Hk & Ht & Hlater) | [Hm0 Hall]].
      * destruct before as [|b before]; simpl in Hl; injection Hl as -> ->.
        -- right. split; [|exact Hlater]. rewrite <- Hk, <- Ht. apply lookup_insert_eq.
        -- left. exists before, mapper, after. auto.
      * inversion Hall as [|? ? Hne Hrest]; subst.
        right. split; [|exact Hrest]. rewrite lookup_insert_ne by exact Hne. exact Hm0.
Qed.

(** [mqtt_message_topics] gives the topics of a connector exactly when every
    datapoint mapper of the connector has, for its key, an available datapoint
    of the same connector; when one has none, the method ends in
    [IndexError]. *)
Lemma mqtt_message_topics_succeeds_iff
    (available : list Admin.ConnectorAvailableDatapoints)
    (objects : list Admin.ConnectorDatapointMapper) (obj_id : Z) :
  ((exists key_topic_mappings,
      Admin.ConnectorAdmin.mqtt_message_topics available objects obj_id = Ok key_topic_mappings) <->
   forall mapper, In mapper objects -> Admin.dm_connector mapper = obj_id ->
     exists dp, In dp available /\ Admin.ad_connector dp = obj_id /\
       Admin.ad_datapoint_key_in_connector dp = Admin.dm_datapoint_key_in_connector mapper) /\
  (forall e, Admin.ConnectorAdmin.mqtt_message_topics available objects obj_id = Raise e ->
     e = IndexError).
Proof.
  unfold Admin.ConnectorAdmin.mqtt_message_topics.
  pose proof (fold_key_topic_mapping available obj_id
                (List.filter (fun mapper => Admin.dm_connector mapper =? obj_id)%Z objects) ∅)
    as Hfold.
  destruct (MqttConnector.fold_result _ _ _) as [m|e].
  - destruct Hfold as [_ Hdp]. split; [|intros e H; discriminate H].
    split; [|eauto]. intros _ mapper Hin Hid. apply Hdp, filter_In.
    split; [exact Hin | apply Z.eqb_eq, Hid].
  - destruct Hfold as [-> (mapper & Hin & Hnone)].
    split; [|intros e H; congruence].
    split; [intros [m H]; discriminate H|].
    intros Hall. exfalso. apply filter_In in Hin as [Hin Hid]. apply Z.eqb_eq in Hid.
    destruct (Hall mapper Hin Hid) as (dp & Hdp & Hdpid & Hkey).
    exact (Hnone dp Hdp Hdpid Hkey).
Qed.

(** In the dict that [mqtt_message_topics] returns, a key has a topic exactly
    when the connector has a datapoint mapper with that key, and the topic is
    that of the last such mapper; mappers of other connectors leave no
    entry. *)
Lemma mqtt_message_topics_entries
    (available : list Admin.ConnectorAvailableDatapoints)
    (objects : list Admin.ConnectorDatapointMapper) (obj_id : Z)
    (key_topic_mappings : gmap string string) :
  Admin.ConnectorAdmin.mqtt_message_topics available objects obj_id = Ok key_topic_mappings ->
  forall key topic,
    key_topic_mappings !! key = Some topic <->
    exists before mapper after,
      List.filter (fun mapper => Admin.dm_connector mapper =? obj_id)%Z objects =
        before ++ mapper :: after /\
      Admin.dm_datapoint_key_in_connector mapper = key /\ Admin.mqtt_topic mapper = topic /\
      Forall (fun later => Admin.dm_datapoint_key_in_connector later <> key) after.
Proof.
  unfold Admin.ConnectorAdmin.mqtt_message_topics. intros H key topic.
  pose proof (fold_key_topic_mapping available obj_id
                (List.filter (fun mapper => Admin.dm_connector mapper =? obj_id)%Z objects) ∅)
    as Hfold.
  rewrite H in Hfold. destruct Hfold as [-> _].
  rewrite foldl_insert_lookup. split.
  - intros [Hex | [Hempty _]]; [exact Hex|]. rewrite lookup_empty in Hempty. discriminate.
  - auto.
Qed.

Lemma mqtt_message_topics_entries_witness :
  Fixtures.topics_of_connector_1 !! "Channel__P__value__0" = Some "bemcom/plant/0002" <->
  exists before mapper after,
    List.filter (fun mapper => Admin.dm_connector mapper =? 1)%Z Fixtures.mappers =
      before ++ mapper :: after /\
    Admin.dm_datapoint_key_in_connector mapper = "Channel__P__value__0" /\
    Admin.mqtt_topic mapper = "bemcom/plant/0002" /\
    Forall (fun later =>
              Admin.dm_datapoint_key_in_connector later <> "Channel__P__value__0") after.
Proof.
  apply (mqtt_message_topics_entries Fixtures.available Fixtures.mappers 1
           Fixtures.topics_of_connector_1).
  vm_compute. reflexivity.
Defined.

Lemma size_list_to_set_le (keys : list string) :
  size (list_to_set keys : gset string) <= List.length keys.
Proof.
  induction keys as [|k keys IH].
  - rewrite list_to_set_nil, size_empty. simpl. lia.
  - rewrite list_to_set_cons, size_union_alt, size_singleton. cbn [List.length].
    assert (size (list_to_set keys ∖ {[k]} : gset string) <=
            size (list_to_set keys : gset string)) as Hsub.
    { apply subseteq_size. apply subseteq_difference_l. reflexivity. }
    lia.
Qed.

(** The dict of [mqtt_message_topics] never has more keys than
    [available_datapoints] counts for the connector: every key in it is the
    key of an available datapoint of that connector. *)
Lemma mqtt_message_topics_within_available
    (available : list Admin.ConnectorAvailableDatapoints)
    (objects : list Admin.ConnectorDatapointMapper) (obj_id : Z)
    (key_topic_mappings : gmap string string) :
  Admin.ConnectorAdmin.mqtt_message_topics available objects obj_id = Ok key_topic_mappings ->
  (forall key, is_Some (key_topic_mappings !! key) ->
     exists dp, In dp available /\ Admin.ad_connector dp = obj_id /\
       Admin.ad_datapoint_key_in_connector dp = key) /\
  size key_topic_mappings <= Admin.ConnectorAdmin.available_datapoints available obj_id.
Proof.
  intros H.
  assert (forall key, is_Some (key_topic_mappings !! key) ->
            exists dp, In dp available /\ Admin.ad_connector dp = obj_id /\
              Admin.ad_datapoint_key_in_connector dp = key) as Hkeys.
  { intros key [topic Hkey].
    unfold Admin.ConnectorAdmin.mqtt_message_topics in H.
    pose proof (fold_key_topic_mapping available obj_id
                  (List.filter (fun mapper => Admin.dm_connector mapper =? obj_id)%Z objects) ∅)
      as Hfold.
    rewrite H in Hfold. destruct Hfold as [-> Hdp].
    apply foldl_insert_lookup in Hkey as [(before & mapper & after & Hl & Hk & _) | [He _]].
    - rewrite <- Hk. apply Hdp. rewrite Hl. apply in_or_app. right. left. reflexivity.
    - rewrite lookup_empty in He. discriminate. }
  split; [exact Hkeys|].
  unfold Admin.ConnectorAdmin.available_datapoints.
  etrans; [|apply size_list_to_set_le].
  rewrite <- size_dom. apply subseteq_size.
  intros key Hkey. apply elem_of_dom in Hkey.
  destruct (Hkeys key Hkey) as (dp & Hin & Hid & <-).
  apply elem_of_list_to_set, list_elem_of_In, in_map, filter_In.
  split; [exact Hin | apply Z.eqb_eq, Hid].
Qed.

Lemma mqtt_message_topics_within_available_witness :
  (forall key, is_Some (Fixtures.topics_of_connector_1 !! key) ->
     exists dp,
       In dp Fixtures.available /\ Admin.ad_connector dp = 1%Z /\
       Admin.ad_datapoint_key_in_connector dp = key) /\
  size Fixtures.topics_of_connector_1 <=
    Admin.ConnectorAdmin.available_datapoints Fixtures.available 1.
Proof.
  apply (mqtt_message_topics_within_available Fixtures.available Fixtures.mappers).
  vm_compute. reflexivity.
Defined.

(** ** The secret key of the API service *)

Lemma random_letters_spec (draw : nat -> nat) (n : nat) :
  forall (i : nat) (key : string),
  ApiSettings.random_letters draw i n = Ok key ->
  String.length key = n /\
  Forall (fun c => In c (list_ascii_of_string ApiSettings.ascii_letters))
    (list_ascii_of_string key).
Proof.
  induction n as [|n IH]; intros i key H; cbn [ApiSettings.random_letters] in H.
  - injection H as <-. split; [reflexivity | constructor].
  - destruct (String.get (draw i) ApiSettings.ascii_letters) as [c|] eqn:Hc;
      [|discriminate H].
    apply bind_ok_inv in H as (rest & Hrest & H). injection H as <-.
    destruct (IH _ _ Hrest) as [Hlen Hall].
    split; [simpl; congruence|].
    cbn [list_ascii_of_string]. constructor; [|exact Hall].
    clear -Hc. revert Hc. generalize (draw i). intros k.
    unfold ApiSettings.ascii_letters.
    do 52 (destruct k as [|k]; [intros H; injection H as <-; simpl; tauto|]).
    simpl. discriminate.
Qed.

(** The secret key of settings that loaded.  It is the configured
    [DJANGO_SECRET_KEY], whenever one is set and not empty; a key is made up
    only when none is set and [N_WORKER_PROCESSES] is 1 (or not set), and it
    is then 64 ASCII letters. *)
Lemma load_secret_key
    (env : gmap string string) (draw : nat -> nat) (s : ApiSettings.settings) :
  ApiSettings.load env draw = Ok s ->
  (exists key,
     ApiSettings.getenv env "DJANGO_SECRET_KEY" = Some key /\ key <> "" /\
     ApiSettings.SECRET_KEY s = key) \/
  (truthy (ApiSettings.getenv env "DJANGO_SECRET_KEY") = false /\
   ApiSettings.int_getenv_or env "N_WORKER_PROCESSES" 1 = Ok 1%Z /\
   String.length (ApiSettings.SECRET_KEY s) = 64 /\
   Forall (fun c => In c (list_ascii_of_string ApiSettings.ascii_letters))
     (list_ascii_of_string (ApiSettings.SECRET_KEY s))).
Proof.
  unfold ApiSettings.load. intros H.
  apply bind_ok_inv in H as (port & _ & H).
  apply bind_ok_inv in H as (threads & _ & H).
  apply bind_ok_inv in H as (key & Hkey & H).
  apply bind_ok_inv in H as (hosts & _ & H).
  apply bind_ok_inv in H as (admins & _ & H).
  apply bind_ok_inv in H as (db & _ & H).
  injection H as <-. cbn [ApiSettings.SECRET_KEY].
  destruct (truthy (ApiSettings.getenv env "DJANGO_SECRET_KEY")) eqn:Hset;
    cbn [negb] in Hkey.
  - left. destruct (ApiSettings.getenv env "DJANGO_SECRET_KEY") as [k|]; [|discriminate Hset].
    simpl in Hkey, Hset. injection Hkey as <-. exists k. split; [reflexivity|].
    split; [|reflexivity]. apply negb_true_iff, String.eqb_neq in Hset. exact Hset.
  - right. apply bind_ok_inv in Hkey as (n & Hn & Hkey).
    destruct (n =? 1)%Z eqn:Hone; [|discriminate Hkey].
    apply Z.eqb_eq in Hone. subst n.
    destruct (random_letters_spec _ _ _ _ Hkey) as [Hlen Hall]. auto.
Qed.

Lemma load_secret_key_witness :
  (exists key,
     ApiSettings.getenv ∅ "DJANGO_SECRET_KEY" = Some key /\ key <> "" /\
     Fixtures.key_bemc = key) \/
  (truthy (ApiSettings.getenv ∅ "DJANGO_SECRET_KEY") = false /\
   ApiSettings.int_getenv_or ∅ "N_WORKER_PROCESSES" 1 = Ok 1%Z /\
   String.length Fixtures.key_bemc = 64 /\
   Forall (fun c => In c (list_ascii_of_string ApiSettings.ascii_letters))
     (list_ascii_of_string Fixtures.key_bemc)).
Proof.
  apply (load_secret_key ∅ Fixtures.draw_bemc
           (ApiSettings.Settings false false None 1883 1 Fixtures.key_bemc false
              (PList [PStr "localhost"]) None ApiSettings.Sqlite3 "INFO" "/static/" false)).
  vm_compute. reflexivity.
Defined.

(** Without a secret key the settings do not load for any number of worker
    processes other than 1: when the two settings read before it are in
    order, loading ends in the [ValueError] that asks for an explicit
    [DJANGO_SECRET_KEY]. *)
Lemma load_refuses_workers_without_secret_key
    (env : gmap string string) (draw : nat -> nat) (n_worker_processes : Z) :
  truthy (ApiSettings.getenv env "DJANGO_SECRET_KEY") = false ->
  ApiSettings.int_getenv_or env "N_WORKER_PROCESSES" 1 = Ok n_worker_processes ->
  n_worker_processes <> 1%Z ->
  is_ok (ApiSettings.load env draw) = false /\
  (is_ok (ApiSettings.int_getenv_or env "MQTT_BROKER_PORT" 1883) = true ->
   is_ok (ApiSettings.int_getenv_or env "N_MTD_WRITE_THREADS" 1) = true ->
   ApiSettings.load env draw =
   Raise (ValueError
            (plain ("DJANGO_SECRET_KEY must be set explicitly if django-api is " ++
                    "run with N_WORKER_PROCESSES > 1.")))).
Proof.
  intros Hkey Hn Hne. unfold ApiSettings.load. rewrite Hkey, Hn.
  apply Z.eqb_neq in Hne.
  destruct (ApiSettings.int_getenv_or env "MQTT_BROKER_PORT" 1883) as [port|e];
    cbn [mbind result_bind Py.bind negb is_ok]; [|split; [reflexivity | discriminate]].
  destruct (ApiSettings.int_getenv_or env "N_MTD_WRITE_THREADS" 1) as [threads|e];
    cbn [mbind result_bind Py.bind negb is_ok]; [|split; [reflexivity | discriminate]].
  rewrite Hne. cbn [mbind result_bind Py.bind is_ok]. split; [reflexivity|]. reflexivity.
Qed.

Lemma load_refuses_workers_without_secret_key_witness :
  is_ok (ApiSettings.load Fixtures.env_four_workers Fixtures.draw_bemc) = false /\
  (is_ok (ApiSettings.int_getenv_or Fixtures.env_four_workers "MQTT_BROKER_PORT" 1883)
     = true ->
   is_ok (ApiSettings.int_getenv_or Fixtures.env_four_workers "N_MTD_WRITE_THREADS" 1)
     = true ->
   ApiSettings.load Fixtures.env_four_workers Fixtures.draw_bemc =
   Raise (ValueError
            (plain ("DJANGO_SECRET_KEY must be set explicitly if django-api is " ++
                    "run with N_WORKER_PROCESSES > 1.")))).
Proof.
  apply (load_refuses_workers_without_secret_key Fixtures.env_four_workers
           Fixtures.draw_bemc 4).
  - reflexivity.
  - reflexivity.
  - discriminate.
Defined.
